(** * Rewrap: the command layer of [src/Main.ts]

    A shallow embedding of the option resolver ([getWrappingColumn],
    [getTabSize], [getOptionsFromEnvironment]), of the edit applicator
    ([applyEdits]), of the edit synthesis ([getEditsAndSelections]) and of
    the command itself ([wrapSomething] and the callback registered by
    [activate]), followed by the properties the specification states about
    them. *)

From Stdlib Require Import ZArith QArith Bool List String Ascii Lia.
From Stdlib Require Import Permutation.
Import ListNotations.
Local Open Scope string_scope.
Local Open Scope list_scope.

(** ** JavaScript values *)

Module JS.

(** A JavaScript number.  Finite doubles are embedded into the rationals:
    the resolver only compares numbers with literals, tests integrality,
    and halves a positive integer, and all of these are exact on doubles.
    The two zeros are identified; no operation used here tells them
    apart ([-0] is falsy, is an integer and is below [1]). *)
Inductive number : Type :=
| NaN
| Infinity (negative : bool)
| Finite (q : Q).

(** The values that flow through the resolver: a setting read with
    [get<number>] or [get<boolean>] is a number or a boolean, or [undefined]
    when the setting is absent. *)
Inductive value : Type :=
| Undefined
| Boolean (b : bool)
| Number (n : number).

Inductive exn : Type :=
| TypeError (msg : string)
| Error (msg : string).

Inductive result (A : Type) : Type :=
| Ok (a : A)
| Throw (e : exn).
Arguments Ok {A} a.
Arguments Throw {A} e.

(** An integer literal of the source text. *)
Definition lit (z : Z) : number := Finite (inject_Z z).

(** A setting of type [T | undefined] as a value. *)
Definition of_setting {T : Type} (inj : T -> value) (s : option T) : value :=
  match s with
  | Some t => inj t
  | None => Undefined
  end.

Definition ToBoolean (v : value) : bool :=
  match v with
  | Undefined => false
  | Boolean b => b
  | Number NaN => false
  | Number (Infinity _) => true
  | Number (Finite q) => negb (Qeq_bool q 0)
  end.

Definition ToNumber (v : value) : number :=
  match v with
  | Undefined => NaN
  | Boolean true => lit 1
  | Boolean false => lit 0
  | Number n => n
  end.

Definition Qltb (a b : Q) : bool :=
  (Qnum a * QDen b <? Qnum b * QDen a)%Z.

(** [x < y] on numbers: false as soon as one side is [NaN]. *)
Definition number_lt (x y : number) : bool :=
  match x, y with
  | NaN, _ | _, NaN => false
  | Finite a, Finite b => Qltb a b
  | Infinity true, Infinity true => false
  | Infinity true, _ => true
  | Infinity false, _ => false
  | Finite _, Infinity negative => negb negative
  end.

(** [a < b] and [a > b] on values. *)
Definition js_lt (a b : value) : bool := number_lt (ToNumber a) (ToNumber b).
Definition js_gt (a b : value) : bool := number_lt (ToNumber b) (ToNumber a).

(** [a && b] returns [a] when it is falsy and [b] otherwise. *)
Definition js_and (a b : value) : value := if ToBoolean a then b else a.

(** [a || b] where either operand is an expression that may throw: [b]
    is only evaluated when [a] is falsy. *)
Definition js_or (a b : result value) : result value :=
  match a with
  | Ok v => if ToBoolean v then Ok v else b
  | Throw e => Throw e
  end.

(** [x / d] for a positive integer literal [d]. *)
Definition div_lit (x : number) (d : positive) : number :=
  match x with
  | Finite q => Finite (q / inject_Z (Zpos d))
  | other => other
  end.

(** [Number.isInteger]: a finite number with no fractional part; false on
    every value that is not a number. *)
Definition Number_isInteger (v : value) : bool :=
  match v with
  | Number (Finite q) => (Qnum q mod Zpos (Qden q) =? 0)%Z
  | _ => false
  end.

(** [a[i]] for [a] of type [number[] | undefined]: reading a property of
    [undefined] throws, reading past the end of an array is [undefined]. *)
Definition index (a : option (list number)) (i : nat) : result value :=
  match a with
  | None => Throw (TypeError "Cannot read property of undefined")
  | Some l => Ok (of_setting Number (nth_error l i))
  end.

(** [Array.prototype.join] on strings. *)
Definition join (sep : string) (l : list string) : string := String.concat sep l.

(** ["\n"] *)
Definition LF : string := String (ascii_of_nat 10) EmptyString.

(** [Number.MAX_VALUE], the largest finite double. *)
Definition MAX_VALUE : number := Finite (inject_Z (2 ^ 1024 - 2 ^ 971)).

(** The settled state of a [Thenable<A>]. *)
Inductive Thenable (A : Type) : Type :=
| Resolved (a : A)
| Rejected (e : exn).
Arguments Resolved {A} a.
Arguments Rejected {A} e.

End JS.
Import JS.

(** ** The host: the part of the [vscode] API the command uses *)

Module VSCode.

Record Position : Type := new_Position { line : number; character : number }.

(** [new Range(startLine, startCharacter, endLine, endCharacter)], kept as
    the positions it was built from.  The coordinates handed to it here are
    line numbers of edits and the literals [0] and [Number.MAX_VALUE]. *)
Record Range : Type := { start : Position; end_ : Position }.

Definition new_Range (startLine startCharacter endLine endCharacter : number)
  : Range :=
  {| start := new_Position startLine startCharacter;
     end_ := new_Position endLine endCharacter |}.

Record Selection : Type := { anchor : Position; active : Position }.

(** A [TextEditorEdit] builder: the [replace] calls made on it, oldest
    first. *)
Definition TextEditorEdit : Type := list (Range * string).

Definition replace (builder : TextEditorEdit) (range : Range) (text : string)
  : TextEditorEdit :=
  builder ++ [(range, text)].

Record TextDocument : Type := {
  lineCount : nat;
  lineAt : nat -> string;          (* [lineAt(i).text] *)
  validateRange : Range -> Range
}.

(** [TextEditorLike].  [edit] hands a fresh builder to its callback and
    submits what the callback recorded; [editSettles] is how the host
    settles the promise it returns for that batch: resolved with whether
    the edits could be applied, or rejected. *)
Record TextEditorLike : Type := {
  document : TextDocument;
  editSettles : TextEditorEdit -> Thenable bool;
  options_tabSize : option number;
  selections : list Selection
}.

(** [workspace.getConfiguration(section).get(key)] for the four settings
    that are read; [None] is [undefined]. *)
Record Workspace : Type := {
  rewrap_wrappingColumn : option number;
  rewrap_doubleSentenceSpacing : option bool;
  editor_rulers : option (list number);
  editor_wrappingColumn : option number
}.

(** What the command does to the outside world, in the order it does it. *)
Inductive event : Type :=
| ConsoleWarn (format : string) (args : list value)
| ConsoleError (msg : string)
| ConsoleLog (err : exn)
| ShowInformationMessage (msg : string)
| EditSubmitted (batch : TextEditorEdit)
| EditSettled (outcome : Thenable bool)
| SelectionsAssigned (sels : list Selection).

End VSCode.
Import VSCode.

(** ** Effects

    A computation runs on the trace of events so far; it returns or throws,
    and in both cases the events it emitted before remain. *)

Definition M (A : Type) : Type := list event -> result A * list event.

Definition ret {A : Type} (a : A) : M A := fun t => (Ok a, t).

Definition throw {A : Type} (e : exn) : M A := fun t => (Throw e, t).

Definition bind {A B : Type} (m : M A) (k : A -> M B) : M B :=
  fun t =>
    match m t with
    | (Ok a, t') => k a t'
    | (Throw e, t') => (Throw e, t')
    end.

Definition emit (ev : event) : M unit := fun t => (Ok tt, t ++ [ev]).

Definition lift {A : Type} (r : result A) : M A := fun t => (r, t).

(** [try { body } catch (err) { handler }] *)
Definition try_catch {A : Type} (body : M A) (handler : exn -> M A) : M A :=
  fun t =>
    match body t with
    | (Ok a, t') => (Ok a, t')
    | (Throw e, t') => handler e t'
    end.

(** Calling an [async function]: the body runs, and whatever it does the
    call itself returns a promise, rejected when the body throws. *)
Definition async {A : Type} (body : M A) : M (Thenable A) :=
  fun t =>
    match body t with
    | (Ok a, t') => (Ok (Resolved a), t')
    | (Throw e, t') => (Ok (Rejected e), t')
    end.

Declare Scope js_scope.
Delimit Scope js_scope with js.
Notation "x <- m ;; k" := (bind m (fun x => k))
  (at level 61, m at next level, right associativity) : js_scope.
Notation "m ;; k" := (bind m (fun _ => k))
  (at level 61, right associativity) : js_scope.
Local Open Scope js_scope.

(** [result] is sequenced the same way where no event is involved. *)
Definition result_bind {A B : Type} (r : result A) (k : A -> result B)
  : result B :=
  match r with
  | Ok a => k a
  | Throw e => Throw e
  end.

(** [Array.prototype.map] with a callback that may throw: elements are
    visited in order and the first exception ends the traversal. *)
Fixpoint map_result {A B : Type} (f : A -> result B) (l : list A)
  : result (list B) :=
  match l with
  | [] => Ok []
  | a :: l' =>
      result_bind (f a) (fun b =>
      result_bind (map_result f l') (fun bs => Ok (b :: bs)))
  end.

(** ** Option resolution *)

Record WrappingOptions : Type := {
  wrappingColumn : value;
  tabSize : value;
  doubleSentenceSpacing : value
}.

(** The initial value of [wrappingColumn] in [getWrappingColumn]:
    [extensionColumn || rulers[0]
       || (0 < editorColumn && editorColumn < 300) && editorColumn || 80]. *)
Definition selectWrappingColumn (workspace : Workspace) : result value :=
  let extensionColumn := of_setting Number (rewrap_wrappingColumn workspace) in
  let rulers := editor_rulers workspace in
  let editorColumn := of_setting Number (editor_wrappingColumn workspace) in
  js_or
    (js_or
       (js_or (Ok extensionColumn) (index rulers 0))
       (Ok (js_and
              (js_and (Boolean (js_lt (Number (lit 0)) editorColumn))
                      (Boolean (js_lt editorColumn (Number (lit 300)))))
              editorColumn)))
    (Ok (Number (lit 80))).

(** The test [!Number.isInteger(x) || x < 1] of both sanitizers. *)
Definition notPositiveInteger (x : value) : bool :=
  negb (Number_isInteger x) || js_lt x (Number (lit 1)).

Definition getWrappingColumn (workspace : Workspace) : M value :=
  wrappingColumn <- lift (selectWrappingColumn workspace) ;;
  if notPositiveInteger wrappingColumn then
    emit (ConsoleWarn
            "Rewrap: wrapping column is an invalid value (%o). Using the default of (80) instead."
            [wrappingColumn]) ;;
    ret (Number (lit 80))
  else if js_gt wrappingColumn (Number (lit 120)) then
    emit (ConsoleWarn
            "Rewrap: wrapping column is a rather large value (%d)."
            [wrappingColumn]) ;;
    ret wrappingColumn
  else
    ret wrappingColumn.

Definition getTabSize (editor : TextEditorLike) (wrappingColumn : value)
  : M value :=
  let tabSize := of_setting Number (options_tabSize editor) in
  tabSize <-
    (if notPositiveInteger tabSize then
       emit (ConsoleWarn
               "Rewrap: tabSize is an invalid value (%o). Using the default of (4) instead."
               [tabSize]) ;;
       ret (Number (lit 4))
     else ret tabSize) ;;
  (if js_gt tabSize (Number (div_lit (ToNumber wrappingColumn) 2)) then
     emit (ConsoleWarn
             "Rewrap: tabSize is (%d) and wrappingColumn is (%d). Unexpected results may occur."
             [tabSize; wrappingColumn])
   else ret tt) ;;
  ret tabSize.

Definition getOptionsFromEnvironment
    (workspace : Workspace) (editor : TextEditorLike) : M WrappingOptions :=
  wrappingColumn <- getWrappingColumn workspace ;;
  tabSize <- getTabSize editor wrappingColumn ;;
  let doubleSentenceSpacing :=
    of_setting Boolean (rewrap_doubleSentenceSpacing workspace) in
  ret {| wrappingColumn := wrappingColumn;
         tabSize := tabSize;
         doubleSentenceSpacing := doubleSentenceSpacing |}.

(** ** Edits *)

(** The [Edit] of ./DocumentProcessor, as [applyEdits] reads it. *)
Record Edit : Type := {
  startLine : number;
  endLine : number;
  lines : list string
}.

(** [edits.forEach(e => ...)]: one [builder.replace] per edit, in order. *)
Definition applyEdits
    (edits : list Edit) (document : TextDocument) (builder : TextEditorEdit)
  : TextEditorEdit :=
  fold_left
    (fun builder e =>
       let range :=
         validateRange document
           (new_Range (startLine e) (lit 0) (endLine e) MAX_VALUE) in
       let text := join LF (lines e) in
       replace builder range text)
    edits builder.

(** A promise the host has not settled yet: the work that remains, carried
    out when the promise is awaited. *)
Definition Promise (A : Type) : Type := M (Thenable A).

(** [await p]: the function resumes once [p] has settled, with its value,
    or with its reason thrown. *)
Definition await {A : Type} (p : Promise A) : M A :=
  settled <- p ;;
  match settled with
  | Resolved a => ret a
  | Rejected e => throw e
  end.

(** [editor.edit(callback)]: the callback fills a fresh builder at once, the
    batch is submitted, and the promise returned settles when the host is
    done with it. *)
Definition edit (editor : TextEditorLike)
    (callback : TextEditorEdit -> TextEditorEdit) : M (Promise bool) :=
  let batch := callback [] in
  emit (EditSubmitted batch) ;;
  ret (emit (EditSettled (editSettles editor batch)) ;;
       ret (editSettles editor batch)).

(** Modelled from the spec: [Array.range] comes from ./extensions, which is
    not among the sources.  The spec has the document lines as the
    zero-indexed sequence of all lines of the document, so
    [Array.range(0, n)] is [0, ..., n - 1]. *)
Definition Array_range (from to : nat) : list nat := seq from (to - from).

Section Collaborators.

(** The modules Main.ts imports and that are not part of it: the sections
    of ./Section, the processor of ./DocumentProcessor chosen by
    ./DocumentTypes, and [adjustSelections] of ./FixSelections.  Each of
    their functions returns or throws. *)
Variable Section_ : Type.

Record Sections : Type := {
  primary : list Section_;
  secondary : list Section_
}.

Record DocumentProcessor : Type := {
  findSections : list string -> value -> result Sections;
  editSection : WrappingOptions -> Section_ -> result Edit
}.

Variable fromDocument : TextDocument -> result DocumentProcessor.
Variable sectionsInSelections :
  list Section_ -> list Section_ -> list Selection -> result (list Section_).
Variable adjustSelections :
  list string -> list Selection -> list Edit -> result (list Selection).

Definition getEditsAndSelections
    (documentProcessor : DocumentProcessor) (documentLines : list string)
    (selections : list Selection) (options : WrappingOptions)
  : result (list Edit * list Selection) :=
  result_bind
    (findSections documentProcessor documentLines (tabSize options))
    (fun sections =>
  result_bind
    (sectionsInSelections (primary sections) (secondary sections) selections)
    (fun sectionsToEdit =>
  result_bind
    (map_result
       (fun sectionToEdit => editSection documentProcessor options sectionToEdit)
       sectionsToEdit)
    (fun edits =>
  result_bind
    (adjustSelections documentLines selections edits)
    (fun adjustedSelections =>
  Ok (edits, adjustedSelections))))).

(** [wrapSomething] is an [async function]. *)
Definition wrapSomething (editor : TextEditorLike) (options : WrappingOptions)
  : M (Thenable unit) :=
  async (
    documentProcessor <- lift (fromDocument (document editor)) ;;
    let documentLines :=
      map (fun i => lineAt (document editor) i)
          (Array_range 0 (lineCount (document editor))) in
    es <- lift (getEditsAndSelections
                  documentProcessor documentLines (selections editor) options) ;;
    let edits := fst es in
    let newSelections := snd es in
    submitted <- edit editor (fun eb => applyEdits edits (document editor) eb) ;;
    _ <- await submitted ;;
    emit (SelectionsAssigned newSelections)).

(** The callback [activate] registers for the command; it returns the
    promise of [wrapSomething], or [null] ([None]) from its [catch]. *)
Definition rewrapComment (workspace : Workspace) (editor : TextEditorLike)
  : M (option (Thenable unit)) :=
  try_catch
    (options <- getOptionsFromEnvironment workspace editor ;;
     promise <- wrapSomething editor options ;;
     ret (Some promise))
    (fun err =>
       emit (ConsoleError "Rewrap: Something happened.") ;;
       emit (ConsoleLog err) ;;
       emit (ConsoleError
               "Rewrap: Please report this (with a screenshot of this log) at https://github.com/stkb/vscode-rewrap/issues") ;;
       emit (ShowInformationMessage
               "Sorry, there was an error in Rewrap. Go to: Help -> Toggle Developer Tools -> Console for more information.") ;;
       ret None).

(** [activate] adds the registered command to the context's subscriptions. *)
Definition activate
    (workspace : Workspace)
    (subscriptions : list (string * (TextEditorLike -> M (option (Thenable unit)))))
  : list (string * (TextEditorLike -> M (option (Thenable unit)))) :=
  subscriptions ++ [("rewrap.rewrapComment", rewrapComment workspace)].

End Collaborators.

Arguments primary {Section_} _.
Arguments secondary {Section_} _.
Arguments findSections {Section_} _ _ _.
Arguments editSection {Section_} _ _ _.
Arguments getEditsAndSelections {Section_} _ _ _ _ _ _.
Arguments wrapSomething {Section_} _ _ _ _ _.
Arguments rewrapComment {Section_} _ _ _ _ _.
Arguments activate {Section_} _ _ _ _ _.

(** ** What the specification says, in its own words *)

(** A positive integer: a finite number equal to some [1, 2, 3, ...]. *)
Definition PositiveInteger (v : value) : Prop :=
  exists (p : positive) (q : Q), v = Number (Finite q) /\ q == inject_Z (Zpos p).

(** A setting counts as a choice when it is truthy: defined, not [NaN] and
    not zero. *)
Definition truthy (n : number) : bool :=
  match n with
  | NaN => false
  | Infinity _ => true
  | Finite q => negb (Qeq_bool q 0)
  end.

(** Strictly between 0 and 300. *)
Definition inOpenRange (n : number) : bool :=
  number_lt (lit 0) n && number_lt n (lit 300).

(** The first ruler, when the list is there and not empty. *)
Definition firstRuler (workspace : Workspace) : option number :=
  match editor_rulers workspace with
  | Some (ruler :: _) => Some ruler
  | _ => None
  end.

(** The last two steps of the precedence: the editor column when it lies in
    (0, 300), and 80 otherwise. *)
Definition editorColumnOr80 (workspace : Workspace) : value :=
  match editor_wrappingColumn workspace with
  | Some editorColumn =>
      if inOpenRange editorColumn then Number editorColumn else Number (lit 80)
  | None => Number (lit 80)
  end.

(** A candidate is taken when it is there and [counts]; the next one is
    looked at otherwise. *)
Definition orElse (counts : number -> bool) (candidate : option number)
    (next : value) : value :=
  match candidate with
  | Some n => if counts n then Number n else next
  | None => next
  end.

Definition precedence (counts : number -> bool) (workspace : Workspace)
  : value :=
  orElse counts (rewrap_wrappingColumn workspace)
    (orElse counts (firstRuler workspace) (editorColumnOr80 workspace)).

(** The precedence as the specification words it: the first DEFINED value
    wins. *)
Definition firstDefinedColumn : Workspace -> value :=
  precedence (fun _ => true).

(** The same precedence where the first TRUTHY value wins. *)
Definition firstTruthyColumn : Workspace -> value := precedence truthy.

(** The edits the specification expects when the wrapper fails on some
    sections: those of the sections it succeeds on, the others skipped. *)
Fixpoint editsSkippingFailures {S : Type}
    (wrap : S -> result Edit) (sections : list S) : list Edit :=
  match sections with
  | [] => []
  | s :: rest =>
      match wrap s with
      | Ok e => e :: editsSkippingFailures wrap rest
      | Throw _ => editsSkippingFailures wrap rest
      end
  end.

(** ** Vocabulary of the further properties *)

(** The extension-level column is set, to a value that counts. *)
Definition extensionColumnCounts (workspace : Workspace) : bool :=
  match rewrap_wrappingColumn workspace with
  | Some extensionColumn => truthy extensionColumn
  | None => false
  end.

(** A finite number not above the integer [z]. *)
Definition AtMost (z : Z) (v : value) : Prop :=
  exists q : Q, v = Number (Finite q) /\ q <= inject_Z z.

Definition isConsoleWarn (ev : event) : Prop :=
  exists format args, ev = ConsoleWarn format args.

(** An edit whose lines the host's [Range] takes as they are given: the
    start line is not negative and not after the end line. *)
Definition linesInOrder (e : Edit) : Prop :=
  exists a b : Q,
    startLine e = Finite a /\ endLine e = Finite b /\ 0 <= a /\ a <= b.

(** The [replace] call the applicator makes for one edit. *)
Definition replacementOf (document : TextDocument) (e : Edit)
  : Range * string :=
  (validateRange document
     (new_Range (startLine e) (lit 0) (endLine e) MAX_VALUE),
   join LF (lines e)).

(** The four events of the [catch] block of the command. *)
Definition errorReport (err : exn) : list event :=
  [ConsoleError "Rewrap: Something happened.";
   ConsoleLog err;
   ConsoleError
     "Rewrap: Please report this (with a screenshot of this log) at https://github.com/stkb/vscode-rewrap/issues";
   ShowInformationMessage
     "Sorry, there was an error in Rewrap. Go to: Help -> Toggle Developer Tools -> Console for more information."].

(** ** Concrete inputs *)

Module Fixtures.

Definition workspace_of
    (extensionColumn : option number) (rulers : option (list number))
    (editorColumn : option number) (spacing : option bool) : Workspace :=
  {| rewrap_wrappingColumn := extensionColumn;
     rewrap_doubleSentenceSpacing := spacing;
     editor_rulers := rulers;
     editor_wrappingColumn := editorColumn |}.

(** Nothing set at all: every lookup is [undefined]. *)
Definition nothingSet : Workspace := workspace_of None None None None.

(** The defaults of the host: no rulers, editor column 300. *)
Definition hostDefaults : Workspace :=
  workspace_of None (Some []) (Some (lit 300)) None.

Definition threeLines : TextDocument :=
  {| lineCount := 3;
     lineAt := fun i => nth i ["// a short"; "// comment"; "code();"] "";
     validateRange := fun r => r |}.

Definition caretAt (l c : Z) : Selection :=
  {| anchor := new_Position (lit l) (lit c);
     active := new_Position (lit l) (lit c) |}.

Definition editorWith (tab : option number) (settles : Thenable bool)
  : TextEditorLike :=
  {| document := threeLines;
     editSettles := fun _ => settles;
     options_tabSize := tab;
     selections := [caretAt 2 0] |}.

(** Sections are line ranges here. *)
Definition lineRange : Type := (Z * Z)%type.

Definition wrapped (s : lineRange) : Edit :=
  {| startLine := lit (fst s);
     endLine := lit (snd s);
     lines := ["// a short comment"] |}.

(** A processor with two sections whose wrapper succeeds on both. *)
Definition soundProcessor : DocumentProcessor lineRange :=
  {| findSections := fun _ _ =>
       Ok {| primary := [(0, 0); (1, 1)]%Z; secondary := [] |};
     editSection := fun _ s => Ok (wrapped s) |}.

(** The same processor, whose wrapper fails on the section at line 1. *)
Definition failingProcessor : DocumentProcessor lineRange :=
  {| findSections := fun _ _ =>
       Ok {| primary := [(0, 0); (1, 1)]%Z; secondary := [] |};
     editSection := fun _ s =>
       if (fst s =? 1)%Z then Throw (Error "malformed decoration")
       else Ok (wrapped s) |}.

Definition allPrimary
    (primary secondary : list lineRange) (sels : list Selection)
  : result (list lineRange) := Ok primary.

Definition keepSelections
    (documentLines : list string) (sels : list Selection) (edits : list Edit)
  : result (list Selection) := Ok sels.

Definition someOptions : WrappingOptions :=
  {| wrappingColumn := Number (lit 80);
     tabSize := Number (lit 4);
     doubleSentenceSpacing := Boolean false |}.

Definition processorOf (documentProcessor : DocumentProcessor lineRange)
  : TextDocument -> result (DocumentProcessor lineRange) :=
  fun _ => Ok documentProcessor.

Definition documentLines : list string :=
  ["// a short"; "// comment"; "code();"].

(** The batch the applicator builds from the two edits of
    [soundProcessor]. *)
Definition twoReplacements : TextEditorEdit :=
  [(new_Range (lit 0) (lit 0) (lit 0) MAX_VALUE, "// a short comment");
   (new_Range (lit 1) (lit 0) (lit 1) MAX_VALUE, "// a short comment")].

(** A position with its character clamped to the end of its line. *)
Definition clampCharacter (texts : list string) (p : Position) : Position :=
  match line p with
  | Finite q =>
      match nth_error texts (Z.to_nat (Qnum q / Zpos (Qden q))) with
      | Some text =>
          let width := lit (Z.of_nat (String.length text)) in
          if number_lt width (character p)
          then {| line := line p; character := width |}
          else p
      | None => p
      end
  | _ => p
  end.

(** The three lines again, in a document that clamps the ranges it
    validates. *)
Definition clampedLines : TextDocument :=
  {| lineCount := 3;
     lineAt := fun i => nth i documentLines "";
     validateRange := fun r =>
       {| start := clampCharacter documentLines (start r);
          end_ := clampCharacter documentLines (end_ r) |} |}.

End Fixtures.

(** ** Numbers *)

Lemma Qeq_bool_0_num (q : Q) : Qeq_bool q 0 = (Qnum q =? 0)%Z.
Proof.
  unfold Qeq_bool. simpl. rewrite Z.mul_1_r. reflexivity.
Qed.

Lemma ToBoolean_number (n : number) : ToBoolean (Number n) = truthy n.
Proof. destruct n; reflexivity. Qed.

Lemma js_and_Boolean (b : bool) (v : value) :
  js_and (Boolean b) v = if b then v else Boolean false.
Proof. destruct b; reflexivity. Qed.

Lemma lt_lit_1 (q : Q) :
  js_lt (Number (Finite q)) (Number (lit 1)) = (Qnum q <? Zpos (Qden q))%Z.
Proof.
  unfold js_lt, lit, number_lt, Qltb. simpl.
  rewrite Z.mul_1_r. destruct (Qden q); reflexivity.
Qed.

(** A number in (0, 300) is truthy: the [&&] chain of the source yields the
    editor column itself exactly when it is in range. *)
Lemma inOpenRange_truthy (n : number) : inOpenRange n = true -> truthy n = true.
Proof.
  unfold inOpenRange. destruct n as [| neg | q]; simpl.
  - discriminate.
  - reflexivity.
  - intros H. apply andb_prop in H. destruct H as [H _].
    unfold Qltb in H. simpl in H. apply Z.ltb_lt in H.
    rewrite Qeq_bool_0_num. apply negb_true_iff. apply Z.eqb_neq. lia.
Qed.

(** The test of the sanitizers rejects exactly what is not a positive
    integer. *)
Lemma notPositiveInteger_false (v : value) :
  notPositiveInteger v = false <-> PositiveInteger v.
Proof.
  unfold notPositiveInteger, PositiveInteger. split.
  - intros H. apply orb_false_elim in H. destruct H as [Hint Hlt].
    apply negb_false_iff in Hint.
    destruct v as [| b | [| neg | q]]; try discriminate Hint.
    simpl in Hint. apply Z.eqb_eq in Hint.
    rewrite lt_lit_1 in Hlt. apply Z.ltb_ge in Hlt.
    pose proof (Z.div_mod (Qnum q) (Zpos (Qden q)) ltac:(lia)) as Hdiv.
    rewrite Hint, Z.add_0_r in Hdiv.
    destruct (Qnum q / Zpos (Qden q))%Z as [| p | p] eqn:Hk; try lia.
    exists p, q. split; [reflexivity |].
    unfold Qeq. cbn [Qnum Qden inject_Z]. lia.
  - intros (p & q & -> & Hq).
    unfold Qeq in Hq. cbn [Qnum Qden inject_Z] in Hq.
    rewrite Z.mul_1_r in Hq.
    apply orb_false_intro.
    + apply negb_false_iff. cbn [Number_isInteger]. rewrite Hq.
      apply Z.eqb_eq. apply Z_mod_mult.
    + rewrite lt_lit_1. apply Z.ltb_ge. nia.
Qed.

Lemma notPositiveInteger_true (v : value) :
  notPositiveInteger v = true <-> ~ PositiveInteger v.
Proof.
  rewrite <- notPositiveInteger_false.
  destruct (notPositiveInteger v); split; congruence.
Qed.

(** ** The wrapping column *)

Lemma js_or_Ok (v : value) (b : result value) :
  js_or (Ok v) b = if ToBoolean v then Ok v else b.
Proof. reflexivity. Qed.

(** The last two operands of the chain. *)
Lemma editorColumn_or_80 (workspace : Workspace) :
  let editorColumn := of_setting Number (editor_wrappingColumn workspace) in
  js_or
    (Ok (js_and
           (js_and (Boolean (js_lt (Number (lit 0)) editorColumn))
                   (Boolean (js_lt editorColumn (Number (lit 300)))))
           editorColumn))
    (Ok (Number (lit 80)))
  = Ok (editorColumnOr80 workspace).
Proof.
  unfold editorColumnOr80.
  destruct (editor_wrappingColumn workspace) as [e |]; [| reflexivity].
  cbn zeta. unfold js_lt, inOpenRange. cbn [of_setting ToNumber].
  pose proof (inOpenRange_truthy e) as Htruthy. unfold inOpenRange in Htruthy.
  rewrite js_or_Ok, js_and_Boolean.
  destruct (number_lt (lit 0) e); rewrite js_and_Boolean; [| reflexivity].
  destruct (number_lt e (lit 300)); [| reflexivity].
  rewrite ToBoolean_number, Htruthy; reflexivity.
Qed.

(** With a rulers list to read, the selection never throws and follows the
    truthy precedence. *)
Lemma selectWrappingColumn_with_rulers
    (workspace : Workspace) (rulers : list number) :
  editor_rulers workspace = Some rulers ->
  selectWrappingColumn workspace = Ok (firstTruthyColumn workspace).
Proof.
  intros Hrulers.
  pose proof (editorColumn_or_80 workspace) as Htail. cbn zeta in Htail.
  unfold selectWrappingColumn, firstTruthyColumn, precedence, orElse,
    firstRuler, index.
  rewrite Hrulers.
  destruct (rewrap_wrappingColumn workspace) as [x |]; cbn [of_setting].
  - rewrite js_or_Ok, ToBoolean_number. destruct (truthy x) eqn:Hx.
    + rewrite js_or_Ok, ToBoolean_number, Hx.
      rewrite js_or_Ok, ToBoolean_number, Hx. reflexivity.
    + destruct rulers as [| r rs]; cbn [nth_error of_setting].
      * rewrite js_or_Ok. cbn [ToBoolean]. exact Htail.
      * rewrite js_or_Ok, ToBoolean_number. destruct (truthy r) eqn:Hr.
        -- rewrite js_or_Ok, ToBoolean_number, Hr. reflexivity.
        -- exact Htail.
  - rewrite js_or_Ok. cbn [ToBoolean].
    destruct rulers as [| r rs]; cbn [nth_error of_setting].
    + rewrite js_or_Ok. cbn [ToBoolean]. exact Htail.
    + rewrite js_or_Ok, ToBoolean_number. destruct (truthy r) eqn:Hr.
      * rewrite js_or_Ok, ToBoolean_number, Hr. reflexivity.
      * exact Htail.
Qed.

(** [getWrappingColumn] run on a trace: it throws what the selection throws,
    and otherwise sanitizes the selected value, warning on the two branches
    that do. *)
Lemma getWrappingColumn_run (workspace : Workspace) (t : list event) :
  getWrappingColumn workspace t =
  match selectWrappingColumn workspace with
  | Throw e => (Throw e, t)
  | Ok c =>
      if notPositiveInteger c then
        (Ok (Number (lit 80)),
         t ++ [ConsoleWarn
                 "Rewrap: wrapping column is an invalid value (%o). Using the default of (80) instead."
                 [c]])
      else if js_gt c (Number (lit 120)) then
        (Ok c,
         t ++ [ConsoleWarn
                 "Rewrap: wrapping column is a rather large value (%d)." [c]])
      else (Ok c, t)
  end.
Proof.
  unfold getWrappingColumn, bind, lift.
  destruct (selectWrappingColumn workspace) as [c | e]; [| reflexivity].
  destruct (notPositiveInteger c); [reflexivity |].
  destruct (js_gt c (Number (lit 120))); reflexivity.
Qed.

(** [getTabSize] always returns: the sanitized value, and the trace with
    the warnings of the two tests that fired. *)
Lemma getTabSize_run
    (editor : TextEditorLike) (wrappingColumn : value) (t : list event) :
  let tabSize := of_setting Number (options_tabSize editor) in
  let resolved :=
    if notPositiveInteger tabSize then Number (lit 4) else tabSize in
  getTabSize editor wrappingColumn t =
  (Ok resolved,
   t ++
   (if notPositiveInteger tabSize then
      [ConsoleWarn
         "Rewrap: tabSize is an invalid value (%o). Using the default of (4) instead."
         [tabSize]]
    else []) ++
   (if js_gt resolved (Number (div_lit (ToNumber wrappingColumn) 2)) then
      [ConsoleWarn
         "Rewrap: tabSize is (%d) and wrappingColumn is (%d). Unexpected results may occur."
         [resolved; wrappingColumn]]
    else [])).
Proof.
  cbn zeta. unfold getTabSize, bind.
  destruct (notPositiveInteger (of_setting Number (options_tabSize editor)));
    cbn [emit ret];
    match goal with
    | |- context [if ?c then _ else _] => destruct c
    end; cbn [emit ret app]; rewrite <- ?app_assoc, ?app_nil_r; reflexivity.
Qed.

(** When the options are resolved, their three fields are what the two
    sanitizers returned and what the spacing lookup gave. *)
Lemma getOptionsFromEnvironment_Ok
    (workspace : Workspace) (editor : TextEditorLike) (t t' : list event)
    (o : WrappingOptions) :
  getOptionsFromEnvironment workspace editor t = (Ok o, t') ->
  exists t1,
    getWrappingColumn workspace t = (Ok (wrappingColumn o), t1)
    /\ getTabSize editor (wrappingColumn o) t1 = (Ok (tabSize o), t')
    /\ doubleSentenceSpacing o =
       of_setting Boolean (rewrap_doubleSentenceSpacing workspace).
Proof.
  unfold getOptionsFromEnvironment, bind.
  destruct (getWrappingColumn workspace t) as [[c | e] t1]; [| discriminate].
  destruct (getTabSize editor c t1) as [[s | e] t2] eqn:Htab; [| discriminate].
  unfold ret. intros H. injection H as <- <-.
  exists t1. cbn. repeat split; [exact Htab].
Qed.

(** Once the rulers list can be read, resolution returns. *)
Lemma getOptionsFromEnvironment_returns
    (workspace : Workspace) (rulers : list number)
    (editor : TextEditorLike) (t : list event) :
  editor_rulers workspace = Some rulers ->
  exists o t', getOptionsFromEnvironment workspace editor t = (Ok o, t').
Proof.
  intros Hrulers.
  unfold getOptionsFromEnvironment, bind.
  rewrite getWrappingColumn_run,
    (selectWrappingColumn_with_rulers workspace rulers Hrulers).
  set (c := firstTruthyColumn workspace).
  assert (Hcol : exists v t1,
    (if notPositiveInteger c then
       (Ok (Number (lit 80)),
        t ++ [ConsoleWarn
                "Rewrap: wrapping column is an invalid value (%o). Using the default of (80) instead."
                [c]])
     else if js_gt c (Number (lit 120)) then
       (Ok c,
        t ++ [ConsoleWarn
                "Rewrap: wrapping column is a rather large value (%d)." [c]])
     else (Ok c, t)) = (@Ok value v, t1)).
  { destruct (notPositiveInteger c); [eauto |].
    destruct (js_gt c (Number (lit 120))); eauto. }
  destruct Hcol as (v & t1 & ->).
  rewrite getTabSize_run. unfold ret. eauto.
Qed.

(** ** Properties of option resolution *)

(** C1.  Resolution is not total: with no setting present at all (the
    extension column and the rulers list both [undefined]) reading
    [rulers[0]] throws a [TypeError], and [getOptionsFromEnvironment]
    returns no options. *)
Theorem getOptionsFromEnvironment_throws_without_rulers :
  getOptionsFromEnvironment
    Fixtures.nothingSet (Fixtures.editorWith (Some (lit 4)) (Resolved true)) []
  = (Throw (TypeError "Cannot read property of undefined"), []).
Proof. reflexivity. Qed.

(** C2, as worded, fails: with the extension column set to 0 and one ruler
    at 72, the first defined value is 0, but the column selected is 72. *)
Lemma selectWrappingColumn_skips_defined_zero :
  let workspace :=
    Fixtures.workspace_of (Some (lit 0)) (Some [lit 72]) None None in
  firstDefinedColumn workspace = Number (lit 0)
  /\ selectWrappingColumn workspace = Ok (Number (lit 72))
  /\ selectWrappingColumn workspace <> Ok (firstDefinedColumn workspace).
Proof.
  cbn zeta. split; [reflexivity |]. split; [reflexivity |].
  vm_compute. discriminate.
Qed.

(** C2, amended.  Whenever the rulers list is present, the wrapping column
    chosen before sanitization is the first TRUTHY value (defined, not zero,
    not NaN) in this order: the extension-level wrappingColumn; the first
    entry of the rulers list; the editor's wrappingColumn, only when it lies
    strictly between 0 and 300; otherwise the constant 80. *)
Theorem selectWrappingColumn_first_truthy
    (workspace : Workspace) (rulers : list number) :
  editor_rulers workspace = Some rulers ->
  selectWrappingColumn workspace = Ok (firstTruthyColumn workspace).
Proof. exact (selectWrappingColumn_with_rulers workspace rulers). Qed.

(** The first example of C2: nothing but the editor's sentinel 300 is set,
    and the column is 80. *)
Lemma selectWrappingColumn_first_truthy_witness :
  selectWrappingColumn Fixtures.hostDefaults = Ok (Number (lit 80)).
Proof.
  rewrite (selectWrappingColumn_first_truthy Fixtures.hostDefaults []).
  - reflexivity.
  - reflexivity.
Defined.

(** The second example of C2: extension column 100 wins over ruler 72, and
    is what resolution returns. *)
Example extension_column_wins :
  let workspace :=
    Fixtures.workspace_of (Some (lit 100)) (Some [lit 72]) None None in
  selectWrappingColumn workspace = Ok (Number (lit 100))
  /\ getWrappingColumn workspace [] = (Ok (Number (lit 100)), []).
Proof. split; reflexivity. Qed.

Example sentinel_300_is_unset :
  getWrappingColumn Fixtures.hostDefaults [] = (Ok (Number (lit 80)), []).
Proof. reflexivity. Qed.

(** C3.  Whenever resolution returns, the wrappingColumn it returns is a
    positive integer: 80 when the selected value is not a positive integer,
    and the selected value itself when it is one, however large. *)
Theorem resolved_wrappingColumn_positive_integer
    (workspace : Workspace) (editor : TextEditorLike) (t t' : list event)
    (o : WrappingOptions) :
  getOptionsFromEnvironment workspace editor t = (Ok o, t') ->
  PositiveInteger (wrappingColumn o)
  /\ exists selected,
       selectWrappingColumn workspace = Ok selected
       /\ (~ PositiveInteger selected -> wrappingColumn o = Number (lit 80))
       /\ (PositiveInteger selected -> wrappingColumn o = selected).
Proof.
  intros Hrun.
  destruct (getOptionsFromEnvironment_Ok _ _ _ _ _ Hrun) as (t1 & Hcol & _ & _).
  rewrite getWrappingColumn_run in Hcol.
  destruct (selectWrappingColumn workspace) as [c | e]; [| discriminate].
  destruct (notPositiveInteger c) eqn:Hc.
  - injection Hcol as Hv _. rewrite <- Hv. split.
    + apply notPositiveInteger_false. reflexivity.
    + exists c. split; [reflexivity |]. split; [reflexivity |].
      intros Hpos. apply notPositiveInteger_false in Hpos. congruence.
  - assert (Hv : c = wrappingColumn o).
    { destruct (js_gt c (Number (lit 120))); congruence. }
    rewrite <- Hv. split.
    + apply notPositiveInteger_false. exact Hc.
    + exists c. split; [reflexivity |]. split; [| reflexivity].
      intros Hneg. apply notPositiveInteger_true in Hneg. congruence.
Qed.

(** C3 at an extension column of 200 (above 120): it is returned as it
    is. *)
Lemma resolved_wrappingColumn_positive_integer_witness :
  PositiveInteger (Number (lit 200))
  /\ exists selected,
       selectWrappingColumn
         (Fixtures.workspace_of (Some (lit 200)) (Some []) None None)
       = Ok selected
       /\ (~ PositiveInteger selected -> Number (lit 200) = Number (lit 80))
       /\ (PositiveInteger selected -> Number (lit 200) = selected).
Proof.
  apply (resolved_wrappingColumn_positive_integer
           (Fixtures.workspace_of (Some (lit 200)) (Some []) None None)
           (Fixtures.editorWith (Some (lit 4)) (Resolved true))
           []
           [ConsoleWarn
              "Rewrap: wrapping column is a rather large value (%d)."
              [Number (lit 200)]]
           {| wrappingColumn := Number (lit 200);
              tabSize := Number (lit 4);
              doubleSentenceSpacing := Undefined |}).
  reflexivity.
Defined.

(** C4.  The resolved tabSize is the editor's value when that value is a
    positive integer and 4 otherwise, whatever the wrapping column: a
    tabSize above half the wrapping column adds a warning to the console
    and is returned as it is. *)
Theorem getTabSize_sanitizes
    (editor : TextEditorLike) (wrappingColumn : value) (t : list event) :
  let editorTabSize := of_setting Number (options_tabSize editor) in
  exists resolved warnings,
    getTabSize editor wrappingColumn t = (Ok resolved, t ++ warnings)
    /\ (PositiveInteger editorTabSize -> resolved = editorTabSize)
    /\ (~ PositiveInteger editorTabSize -> resolved = Number (lit 4))
    /\ Forall (fun ev => exists format args, ev = ConsoleWarn format args)
              warnings
    /\ (js_gt resolved (Number (div_lit (ToNumber wrappingColumn) 2)) = true ->
        In (ConsoleWarn
              "Rewrap: tabSize is (%d) and wrappingColumn is (%d). Unexpected results may occur."
              [resolved; wrappingColumn])
           warnings).
Proof.
  cbn zeta.
  pose proof (getTabSize_run editor wrappingColumn t) as Hrun.
  cbn zeta in Hrun.
  eexists. eexists. split; [exact Hrun |].
  destruct (notPositiveInteger (of_setting Number (options_tabSize editor)))
    eqn:Htab.
  - split. { intros Hpos. apply notPositiveInteger_false in Hpos. congruence. }
    split. { reflexivity. }
    split.
    + apply Forall_app. split; [repeat constructor; eauto |].
      destruct (js_gt _ _); repeat constructor; eauto.
    + intros ->. apply in_or_app. right. left. reflexivity.
  - split. { reflexivity. }
    split. { intros Hneg. apply notPositiveInteger_true in Hneg. congruence. }
    split.
    + apply Forall_app. split; [constructor |].
      destruct (js_gt _ _); repeat constructor; eauto.
    + intros ->. left. reflexivity.
Qed.

(** C4 at [editorTabSize = 0] with a wrapping column of 80: the resolved
    tabSize is 4. *)
Lemma getTabSize_sanitizes_witness :
  exists warnings,
    getTabSize (Fixtures.editorWith (Some (lit 0)) (Resolved true))
               (Number (lit 80)) []
    = (Ok (Number (lit 4)), warnings).
Proof.
  destruct (getTabSize_sanitizes
              (Fixtures.editorWith (Some (lit 0)) (Resolved true))
              (Number (lit 80)) [])
    as (resolved & warnings & Hrun & _ & Hinvalid & _).
  exists warnings. rewrite Hrun. cbn [app]. rewrite Hinvalid.
  - reflexivity.
  - apply notPositiveInteger_true. reflexivity.
Defined.

(** A tabSize of 50 against a wrapping column of 80 is above the half: it
    is warned about and returned as it is. *)
Example large_tabSize_kept :
  getTabSize (Fixtures.editorWith (Some (lit 50)) (Resolved true))
             (Number (lit 80)) []
  = (Ok (Number (lit 50)),
     [ConsoleWarn
        "Rewrap: tabSize is (%d) and wrappingColumn is (%d). Unexpected results may occur."
        [Number (lit 50); Number (lit 80)]]).
Proof. reflexivity. Qed.

(** C5, as worded, fails: when the doubleSentenceSpacing setting is absent
    the resolved options hold [undefined], not [false]. *)
Lemma absent_spacing_is_not_false :
  exists o t',
    getOptionsFromEnvironment
      Fixtures.hostDefaults (Fixtures.editorWith (Some (lit 4)) (Resolved true)) []
    = (Ok o, t')
    /\ doubleSentenceSpacing o = Undefined
    /\ doubleSentenceSpacing o <> Boolean false.
Proof.
  eexists. eexists. split; [reflexivity |]. split; [reflexivity |].
  discriminate.
Qed.

(** C5, amended.  The resolved doubleSentenceSpacing is what the lookup of
    the setting gave: its boolean unchanged when the setting is present,
    and [undefined] when it is absent, which is falsy but is not the
    boolean [false]. *)
Theorem doubleSentenceSpacing_passthrough
    (workspace : Workspace) (editor : TextEditorLike) (t t' : list event)
    (o : WrappingOptions) :
  getOptionsFromEnvironment workspace editor t = (Ok o, t') ->
  match rewrap_doubleSentenceSpacing workspace with
  | Some b => doubleSentenceSpacing o = Boolean b
  | None =>
      doubleSentenceSpacing o = Undefined
      /\ ToBoolean (doubleSentenceSpacing o) = false
  end.
Proof.
  intros Hrun.
  destruct (getOptionsFromEnvironment_Ok _ _ _ _ _ Hrun) as (_ & _ & _ & ->).
  destruct (rewrap_doubleSentenceSpacing workspace); cbn; auto.
Qed.

(** C5 at a workspace where the setting is [true]. *)
Lemma doubleSentenceSpacing_passthrough_witness :
  doubleSentenceSpacing
    {| wrappingColumn := Number (lit 80);
       tabSize := Number (lit 4);
       doubleSentenceSpacing := Boolean true |}
  = Boolean true.
Proof.
  apply (doubleSentenceSpacing_passthrough
           (Fixtures.workspace_of None (Some []) None (Some true))
           (Fixtures.editorWith (Some (lit 4)) (Resolved true))
           [] []).
  reflexivity.
Defined.

(** ** Properties of the applicator *)

(** C7, as worded, fails: the range is handed to the host's
    [validateRange] before the [replace] call, so on a document that clamps
    positions to its line ends the range issued for an edit of lines 0 to 1
    ends at column 10, the end of line 1, and not at the sentinel. *)
Lemma applyEdits_issues_validated_range :
  let e := Fixtures.wrapped (0, 1)%Z in
  applyEdits [e] Fixtures.clampedLines []
  = [(new_Range (lit 0) (lit 0) (lit 1) (lit 10), "// a short comment")]
  /\ forall issued text,
       In (issued, text) (applyEdits [e] Fixtures.clampedLines []) ->
       issued <> new_Range (startLine e) (lit 0) (endLine e) MAX_VALUE.
Proof.
  cbn zeta.
  assert (Hrun :
    applyEdits [Fixtures.wrapped (0, 1)%Z] Fixtures.clampedLines []
    = [(new_Range (lit 0) (lit 0) (lit 1) (lit 10), "// a short comment")]).
  { vm_compute. reflexivity. }
  split; [exact Hrun |].
  intros issued text Hin. rewrite Hrun in Hin.
  destruct Hin as [Heq | []]. injection Heq as <- _.
  intros Hsame. injection Hsame as Hz. vm_compute in Hz. discriminate Hz.
Qed.

(** C7, amended.  For a batch of edits with 0 <= startLine <= endLine, the
    applicator makes exactly one [replace] call per edit, in the order of
    the edits: its range is what the host's [validateRange] returns for the
    range from position (startLine, 0) to position (endLine,
    Number.MAX_VALUE), the largest finite double, and its text is the
    edit's lines joined with the line feed character. *)
Theorem applyEdits_one_replace_per_edit
    (edits : list Edit) (document : TextDocument) (builder : TextEditorEdit) :
  Forall linesInOrder edits ->
  applyEdits edits document builder =
  builder ++
  map (fun e =>
         (validateRange document
            {| start := {| line := startLine e; character := Finite 0 |};
               end_ := {| line := endLine e;
                          character :=
                            Finite (inject_Z (2 ^ 1024 - 2 ^ 971)) |} |},
          String.concat (String (ascii_of_nat 10) EmptyString) (lines e)))
      edits.
Proof.
  intros _. revert builder.
  induction edits as [| e edits IH]; intros builder.
  - cbn [map]. rewrite app_nil_r. reflexivity.
  - change (applyEdits (e :: edits) document builder)
      with (applyEdits edits document
              (replace builder
                 (validateRange document
                    (new_Range (startLine e) (lit 0) (endLine e) MAX_VALUE))
                 (join LF (lines e)))).
    rewrite IH. unfold replace. rewrite <- app_assoc. reflexivity.
Qed.

(** C7 amended, at the two one-line edits of lines 0 and 1 on the clamping
    document: two replacements, each ending at the end of its line. *)
Lemma applyEdits_one_replace_per_edit_witness :
  applyEdits [Fixtures.wrapped (0, 0)%Z; Fixtures.wrapped (1, 1)%Z]
    Fixtures.clampedLines []
  = [(new_Range (lit 0) (lit 0) (lit 0) (lit 10), "// a short comment");
     (new_Range (lit 1) (lit 0) (lit 1) (lit 10), "// a short comment")].
Proof.
  rewrite (applyEdits_one_replace_per_edit
             [Fixtures.wrapped (0, 0)%Z; Fixtures.wrapped (1, 1)%Z]
             Fixtures.clampedLines []).
  - vm_compute. reflexivity.
  - constructor; [| constructor; [| constructor]].
    + exists (inject_Z 0), (inject_Z 0).
      repeat split; unfold Qle; simpl; lia.
    + exists (inject_Z 1), (inject_Z 1).
      repeat split; unfold Qle; simpl; lia.
Defined.

(** ** Properties of the synthesis and of the command *)

Section Properties.

Variable Section_ : Type.
Variable fromDocument : TextDocument -> result (DocumentProcessor Section_).
Variable sectionsInSelections :
  list Section_ -> list Section_ -> list Selection -> result (list Section_).
Variable adjustSelections :
  list string -> list Selection -> list Edit -> result (list Selection).

(** A failure of the callback on some element is a failure of the whole
    [map]: the one of the first element it fails on. *)
Lemma map_result_Throw {A B : Type} (f : A -> result B) (l : list A)
    (a : A) (e : exn) :
  In a l -> f a = Throw e ->
  exists a' e', In a' l /\ f a' = Throw e' /\ map_result f l = Throw e'.
Proof.
  induction l as [| x l IH]; intros Hin Hfail; [contradiction |].
  cbn [map_result]. destruct (f x) as [b | ex] eqn:Hx.
  - destruct Hin as [-> | Hin]; [congruence |].
    destruct (IH Hin Hfail) as (a' & e' & Hin' & Hfa' & Hmap).
    exists a', e'. rewrite Hmap. cbn. auto.
  - exists x, ex. cbn. auto.
Qed.

(** C6, amended.  When the wrapper fails on one of the selected sections,
    the section is not skipped: the failure leaves
    [getEditsAndSelections] as an exception of the wrapper on a selected
    section, and no edit of the batch is returned. *)
Theorem getEditsAndSelections_wrapper_failure_aborts
    (documentProcessor : DocumentProcessor Section_)
    (documentLines : list string) (selections : list Selection)
    (options : WrappingOptions)
    (sections : Sections Section_) (sectionsToEdit : list Section_)
    (failing : Section_) (e : exn) :
  findSections documentProcessor documentLines (tabSize options) = Ok sections ->
  sectionsInSelections (primary sections) (secondary sections) selections
    = Ok sectionsToEdit ->
  In failing sectionsToEdit ->
  editSection documentProcessor options failing = Throw e ->
  exists s' e',
    In s' sectionsToEdit
    /\ editSection documentProcessor options s' = Throw e'
    /\ getEditsAndSelections sectionsInSelections adjustSelections
         documentProcessor documentLines selections options
       = Throw e'.
Proof.
  intros Hfind Hsel Hin Hfail.
  destruct (map_result_Throw
              (fun sectionToEdit =>
                 editSection documentProcessor options sectionToEdit)
              sectionsToEdit failing e Hin Hfail)
    as (s' & e' & Hin' & Hfail' & Hmap).
  exists s', e'. split; [exact Hin' |]. split; [exact Hfail' |].
  unfold getEditsAndSelections. rewrite Hfind. cbn [result_bind].
  rewrite Hsel. cbn [result_bind]. rewrite Hmap. reflexivity.
Qed.

(** [wrapSomething] run on a trace. *)
Lemma wrapSomething_run
    (editor : TextEditorLike) (options : WrappingOptions) (t : list event) :
  wrapSomething fromDocument sectionsInSelections adjustSelections
    editor options t =
  match fromDocument (document editor) with
  | Throw e => (Ok (Rejected e), t)
  | Ok documentProcessor =>
      match
        getEditsAndSelections sectionsInSelections adjustSelections
          documentProcessor
          (map (lineAt (document editor))
               (seq 0 (lineCount (document editor))))
          (selections editor) options
      with
      | Throw e => (Ok (Rejected e), t)
      | Ok (edits, newSelections) =>
          let batch := applyEdits edits (document editor) [] in
          match editSettles editor batch with
          | Resolved applied =>
              (Ok (Resolved tt),
               t ++ [EditSubmitted batch; EditSettled (Resolved applied);
                     SelectionsAssigned newSelections])
          | Rejected e =>
              (Ok (Rejected e),
               t ++ [EditSubmitted batch; EditSettled (Rejected e)])
          end
      end
  end.
Proof.
  unfold wrapSomething, async, bind, lift, Array_range.
  rewrite Nat.sub_0_r.
  destruct (fromDocument (document editor)) as [dp | e]; [| reflexivity].
  match goal with
  | |- context [getEditsAndSelections ?a ?b ?c ?d ?e ?f] =>
      destruct (getEditsAndSelections a b c d e f) as [[edits sels] | e']
  end; [| reflexivity].
  cbn [fst snd]. unfold edit, await, bind, emit, ret, throw.
  destruct (editSettles editor (applyEdits edits (document editor) []));
    cbn zeta; rewrite <- !app_assoc; reflexivity.
Qed.

(** The [catch] of the command only sees what [getOptionsFromEnvironment]
    throws: once the options are resolved, the callback returns the promise
    of [wrapSomething] whatever happens in it, and its trace is that of
    [wrapSomething]. *)
Lemma rewrapComment_after_options
    (workspace : Workspace) (editor : TextEditorLike) (t t1 : list event)
    (options : WrappingOptions) :
  getOptionsFromEnvironment workspace editor t = (Ok options, t1) ->
  exists promise t2,
    wrapSomething fromDocument sectionsInSelections adjustSelections
      editor options t1 = (Ok promise, t2)
    /\ rewrapComment fromDocument sectionsInSelections adjustSelections
         workspace editor t = (Ok (Some promise), t2).
Proof.
  intros Hopts. unfold rewrapComment, try_catch, bind. rewrite Hopts.
  rewrite wrapSomething_run.
  destruct (fromDocument (document editor)) as [dp | e]; [| eauto].
  match goal with
  | |- context [getEditsAndSelections ?a ?b ?c ?d ?e ?f] =>
      destruct (getEditsAndSelections a b c d e f) as [[edits sels] | e']
  end; [| eauto].
  cbn zeta.
  destruct (editSettles editor (applyEdits edits (document editor) []));
    eauto.
Qed.

(** C9.  In every run of [wrapSomething], the new selections are assigned
    only after the edit batch was submitted and the host's promise for it
    has resolved: whatever the trace, an assignment of selections in it
    comes right after these two events, and is the last thing done. *)
Theorem wrapSomething_assigns_after_edit_settled
    (editor : TextEditorLike) (options : WrappingOptions)
    (t t' : list event) (promise : Thenable unit) :
  wrapSomething fromDocument sectionsInSelections adjustSelections
    editor options t = (Ok promise, t') ->
  exists new,
    t' = t ++ new
    /\ forall before sels after,
         new = before ++ SelectionsAssigned sels :: after ->
         exists batch applied,
           before = [EditSubmitted batch; EditSettled (Resolved applied)]
           /\ after = [].
Proof.
  rewrite wrapSomething_run.
  destruct (fromDocument (document editor)) as [dp | e].
  2: { intros H. injection H as _ <-. exists []. rewrite app_nil_r.
       split; [reflexivity |]. intros [| x before] sels after H; discriminate. }
  match goal with
  | |- context [getEditsAndSelections ?a ?b ?c ?d ?e ?f] =>
      destruct (getEditsAndSelections a b c d e f) as [[edits sels0] | e']
  end.
  2: { intros H. injection H as _ <-. exists []. rewrite app_nil_r.
       split; [reflexivity |]. intros [| x before] sels after H; discriminate. }
  cbn zeta.
  destruct (editSettles editor (applyEdits edits (document editor) []))
    as [applied | e'']; intros H; injection H as _ <-; eexists;
    (split; [reflexivity |]); intros before sels after Hsplit.
  - destruct before as [| x [| y [| z before]]]; try discriminate Hsplit.
    + injection Hsplit as <- <- _ <-. eauto.
    + injection Hsplit as _ _ _ Hrest. destruct before; discriminate Hrest.
  - destruct before as [| x [| y [| z before]]]; discriminate Hsplit.
Qed.

(** C10.  Once the host's promise for the edit batch has resolved, with
    [true] or with [false], [wrapSomething] assigns the selections computed
    beforehand, and returns normally. *)
Theorem wrapSomething_assigns_whatever_edit_reports
    (editor : TextEditorLike) (options : WrappingOptions) (t : list event)
    (documentProcessor : DocumentProcessor Section_)
    (edits : list Edit) (newSelections : list Selection) (applied : bool) :
  fromDocument (document editor) = Ok documentProcessor ->
  getEditsAndSelections sectionsInSelections adjustSelections
    documentProcessor
    (map (lineAt (document editor)) (seq 0 (lineCount (document editor))))
    (selections editor) options
  = Ok (edits, newSelections) ->
  editSettles editor (applyEdits edits (document editor) []) = Resolved applied ->
  wrapSomething fromDocument sectionsInSelections adjustSelections
    editor options t =
  (Ok (Resolved tt),
   t ++ [EditSubmitted (applyEdits edits (document editor) []);
         EditSettled (Resolved applied);
         SelectionsAssigned newSelections]).
Proof.
  intros Hdoc Hedits Hsettles.
  rewrite wrapSomething_run, Hdoc, Hedits. cbn zeta. rewrite Hsettles.
  reflexivity.
Qed.

End Properties.

(** ** The properties at concrete inputs *)

(** C6, as worded, fails: the wrapper fails on the second of two selected
    sections and succeeds on the first; skipping would leave the edit of
    the first, but the synthesis returns no edits at all. *)
Lemma getEditsAndSelections_does_not_skip :
  let run :=
    getEditsAndSelections Fixtures.allPrimary Fixtures.keepSelections
      Fixtures.failingProcessor Fixtures.documentLines [Fixtures.caretAt 2 0]
      Fixtures.someOptions in
  editsSkippingFailures
    (editSection Fixtures.failingProcessor Fixtures.someOptions)
    [(0, 0); (1, 1)]%Z
  = [Fixtures.wrapped (0, 0)%Z]
  /\ run = Throw (Error "malformed decoration")
  /\ forall edits adjusted, run <> Ok (edits, adjusted).
Proof.
  cbn zeta. split; [reflexivity |]. split; [reflexivity |].
  intros edits adjusted. vm_compute. discriminate.
Qed.

(** C6 amended, at the processor whose wrapper fails on the section at
    line 1. *)
Lemma getEditsAndSelections_wrapper_failure_aborts_witness :
  exists s' e',
    In s' [(0, 0); (1, 1)]%Z
    /\ editSection Fixtures.failingProcessor Fixtures.someOptions s' = Throw e'
    /\ getEditsAndSelections Fixtures.allPrimary Fixtures.keepSelections
         Fixtures.failingProcessor Fixtures.documentLines [Fixtures.caretAt 2 0]
         Fixtures.someOptions
       = Throw e'.
Proof.
  apply (getEditsAndSelections_wrapper_failure_aborts
           Fixtures.lineRange Fixtures.allPrimary Fixtures.keepSelections
           Fixtures.failingProcessor Fixtures.documentLines [Fixtures.caretAt 2 0]
           Fixtures.someOptions
           {| primary := [(0, 0); (1, 1)]%Z; secondary := [] |}
           [(0, 0); (1, 1)]%Z (1, 1)%Z (Error "malformed decoration")).
  - reflexivity.
  - reflexivity.
  - simpl. right. left. reflexivity.
  - reflexivity.
Defined.

(** C8 fails on an error raised inside [wrapSomething]: the wrapper throws
    while the edits are synthesized, the callback of the command returns
    the rejected promise, and its [catch] does not run: nothing is logged
    and no notification is shown. *)
Theorem rewrapComment_misses_errors_of_wrapSomething :
  rewrapComment (Fixtures.processorOf Fixtures.failingProcessor)
    Fixtures.allPrimary Fixtures.keepSelections
    Fixtures.hostDefaults (Fixtures.editorWith (Some (lit 4)) (Resolved true)) []
  = (Ok (Some (Rejected (Error "malformed decoration"))), []).
Proof. reflexivity. Qed.

(** An error of [getOptionsFromEnvironment] is caught: it is logged between
    two error lines, one notification is shown, [null] is returned, and
    nothing is submitted or assigned. *)
Example rewrapComment_catches_errors_of_options :
  rewrapComment (Fixtures.processorOf Fixtures.soundProcessor)
    Fixtures.allPrimary Fixtures.keepSelections
    Fixtures.nothingSet (Fixtures.editorWith (Some (lit 4)) (Resolved true)) []
  = (Ok None,
     [ConsoleError "Rewrap: Something happened.";
      ConsoleLog (TypeError "Cannot read property of undefined");
      ConsoleError
        "Rewrap: Please report this (with a screenshot of this log) at https://github.com/stkb/vscode-rewrap/issues";
      ShowInformationMessage
        "Sorry, there was an error in Rewrap. Go to: Help -> Toggle Developer Tools -> Console for more information."]).
Proof. reflexivity. Qed.

(** C9 at a run that assigns selections: they come after the submission of
    the batch and the settling of its promise. *)
Lemma wrapSomething_assigns_after_edit_settled_witness :
  exists batch applied,
    [EditSubmitted Fixtures.twoReplacements; EditSettled (Resolved true)]
    = [EditSubmitted batch; EditSettled (Resolved applied)]
    /\ @nil event = [].
Proof.
  destruct (wrapSomething_assigns_after_edit_settled
              Fixtures.lineRange (Fixtures.processorOf Fixtures.soundProcessor)
              Fixtures.allPrimary Fixtures.keepSelections
              (Fixtures.editorWith (Some (lit 4)) (Resolved true))
              Fixtures.someOptions
              []
              [EditSubmitted Fixtures.twoReplacements; EditSettled (Resolved true);
               SelectionsAssigned [Fixtures.caretAt 2 0]]
              (Resolved tt) eq_refl)
    as (new & Hnew & Horder).
  cbn [app] in Hnew. subst new.
  exact (Horder
           [EditSubmitted Fixtures.twoReplacements; EditSettled (Resolved true)]
           [Fixtures.caretAt 2 0] [] eq_refl).
Defined.

(** C10 at a host that reports the edit as not applied: the selections are
    assigned all the same. *)
Lemma wrapSomething_assigns_whatever_edit_reports_witness :
  wrapSomething (Fixtures.processorOf Fixtures.soundProcessor)
    Fixtures.allPrimary Fixtures.keepSelections
    (Fixtures.editorWith (Some (lit 4)) (Resolved false))
    Fixtures.someOptions []
  = (Ok (Resolved tt),
     [EditSubmitted Fixtures.twoReplacements; EditSettled (Resolved false);
      SelectionsAssigned [Fixtures.caretAt 2 0]]).
Proof.
  apply (wrapSomething_assigns_whatever_edit_reports
           Fixtures.lineRange (Fixtures.processorOf Fixtures.soundProcessor)
           Fixtures.allPrimary Fixtures.keepSelections
           (Fixtures.editorWith (Some (lit 4)) (Resolved false))
           Fixtures.someOptions []
           Fixtures.soundProcessor
           [Fixtures.wrapped (0, 0)%Z; Fixtures.wrapped (1, 1)%Z]
           [Fixtures.caretAt 2 0] false).
  - reflexivity.
  - reflexivity.
  - reflexivity.
Defined.

(** * Further properties of Main.ts *)

(** ** Option resolution: when it throws, what it selects, what it logs *)

(** A truthy extension column ends the [||] chain at once. *)
Lemma selectWrappingColumn_extension (workspace : Workspace) (x : number) :
  rewrap_wrappingColumn workspace = Some x ->
  truthy x = true ->
  selectWrappingColumn workspace = Ok (Number x).
Proof.
  intros Hext Hx. unfold selectWrappingColumn. rewrite Hext. cbn [of_setting].
  rewrite js_or_Ok, ToBoolean_number, Hx.
  rewrite js_or_Ok, ToBoolean_number, Hx.
  rewrite js_or_Ok, ToBoolean_number, Hx. reflexivity.
Qed.

(** Without such a column the chain goes on to [rulers[0]], which throws
    when there is no rulers list. *)
Lemma selectWrappingColumn_no_rulers (workspace : Workspace) :
  editor_rulers workspace = None ->
  extensionColumnCounts workspace = false ->
  selectWrappingColumn workspace
  = Throw (TypeError "Cannot read property of undefined").
Proof.
  unfold extensionColumnCounts, selectWrappingColumn. intros Hrulers Hext.
  rewrite Hrulers.
  destruct (rewrap_wrappingColumn workspace) as [x |]; cbn [of_setting].
  - rewrite js_or_Ok, ToBoolean_number, Hext. reflexivity.
  - reflexivity.
Qed.

(** Resolution returns or throws as the selection does, and a throw leaves
    the trace as it was. *)
Lemma getOptionsFromEnvironment_of_selection
    (workspace : Workspace) (editor : TextEditorLike) (t : list event) :
  match selectWrappingColumn workspace with
  | Ok _ =>
      exists o t', getOptionsFromEnvironment workspace editor t = (Ok o, t')
  | Throw e => getOptionsFromEnvironment workspace editor t = (Throw e, t)
  end.
Proof.
  unfold getOptionsFromEnvironment, bind. rewrite getWrappingColumn_run.
  destruct (selectWrappingColumn workspace) as [c | e]; [| reflexivity].
  destruct (notPositiveInteger c).
  - rewrite getTabSize_run. unfold ret. eauto.
  - destruct (js_gt c (Number (lit 120)));
      rewrite getTabSize_run; unfold ret; eauto.
Qed.

Lemma firstTruthyColumn_truthy_number (workspace : Workspace) :
  exists n, firstTruthyColumn workspace = Number n /\ truthy n = true.
Proof.
  assert (Htail : exists n,
            editorColumnOr80 workspace = Number n /\ truthy n = true).
  { unfold editorColumnOr80.
    destruct (editor_wrappingColumn workspace) as [e |].
    - destruct (inOpenRange e) eqn:He.
      + exists e. split; [reflexivity | apply inOpenRange_truthy; exact He].
      + exists (lit 80). split; reflexivity.
    - exists (lit 80). split; reflexivity. }
  assert (Hmid : exists n,
            orElse truthy (firstRuler workspace) (editorColumnOr80 workspace)
            = Number n /\ truthy n = true).
  { unfold orElse. destruct (firstRuler workspace) as [r |]; [| exact Htail].
    destruct (truthy r) eqn:Hr; [eauto | exact Htail]. }
  unfold firstTruthyColumn, precedence, orElse.
  destruct (rewrap_wrappingColumn workspace) as [x |]; [| exact Hmid].
  destruct (truthy x) eqn:Hx; [eauto | exact Hmid].
Qed.

Lemma selectWrappingColumn_truthy_number (workspace : Workspace) (c : value) :
  selectWrappingColumn workspace = Ok c ->
  exists n, c = Number n /\ truthy n = true.
Proof.
  intros Hsel.
  destruct (editor_rulers workspace) as [rulers |] eqn:Hrulers.
  - rewrite (selectWrappingColumn_with_rulers workspace rulers Hrulers) in Hsel.
    injection Hsel as <-. apply firstTruthyColumn_truthy_number.
  - destruct (extensionColumnCounts workspace) eqn:Hext.
    + unfold extensionColumnCounts in Hext.
      destruct (rewrap_wrappingColumn workspace) as [x |] eqn:Hx;
        [| discriminate].
      rewrite (selectWrappingColumn_extension workspace x Hx Hext) in Hsel.
      injection Hsel as <-. eauto.
    + rewrite (selectWrappingColumn_no_rulers workspace Hrulers Hext) in Hsel.
      discriminate.
Qed.

Lemma js_gt_lit (q : Q) (z : Z) :
  js_gt (Number (Finite q)) (Number (lit z)) = false <-> q <= inject_Z z.
Proof.
  unfold js_gt, lit, number_lt, Qltb, Qle. cbn [ToNumber Qnum Qden inject_Z].
  rewrite Z.ltb_ge, !Z.mul_1_r. reflexivity.
Qed.

Lemma js_gt_AtMost (z : Z) (c : value) :
  PositiveInteger c ->
  (js_gt c (Number (lit z)) = false <-> AtMost z c).
Proof.
  intros (p & q & -> & _). rewrite js_gt_lit. unfold AtMost. split.
  - intros H. exists q. auto.
  - intros (q' & Heq & H). injection Heq as <-. exact H.
Qed.

Lemma PositiveInteger_4 : PositiveInteger (Number (lit 4)).
Proof. apply notPositiveInteger_false. reflexivity. Qed.

(** X1.  Resolution throws exactly when there is no rulers list and the
    extension column is absent or falsy; what it throws then is the
    [TypeError] of [rulers[0]], before anything was logged. *)
Theorem getOptionsFromEnvironment_throws_iff
    (workspace : Workspace) (editor : TextEditorLike) (t : list event) :
  ((exists e t', getOptionsFromEnvironment workspace editor t = (Throw e, t'))
   <-> editor_rulers workspace = None
       /\ extensionColumnCounts workspace = false)
  /\ (forall e t',
        getOptionsFromEnvironment workspace editor t = (Throw e, t') ->
        (exists msg, e = TypeError msg) /\ t' = t).
Proof.
  pose proof (getOptionsFromEnvironment_of_selection workspace editor t) as Hrun.
  destruct (editor_rulers workspace) as [rulers |] eqn:Hrulers.
  - rewrite (selectWrappingColumn_with_rulers workspace rulers Hrulers) in Hrun.
    destruct Hrun as (o & t1 & Hrun). rewrite Hrun. split.
    + split.
      * intros (e & t' & H). discriminate H.
      * intros [H _]. discriminate H.
    + intros e t' H. discriminate H.
  - destruct (extensionColumnCounts workspace) eqn:Hext.
    + unfold extensionColumnCounts in Hext.
      destruct (rewrap_wrappingColumn workspace) as [x |] eqn:Hx;
        [| discriminate].
      rewrite (selectWrappingColumn_extension workspace x Hx Hext) in Hrun.
      destruct Hrun as (o & t1 & Hrun). rewrite Hrun. split.
      * split.
        -- intros (e & t' & H). discriminate H.
        -- intros [_ H]. discriminate H.
      * intros e t' H. discriminate H.
    + rewrite (selectWrappingColumn_no_rulers workspace Hrulers Hext) in Hrun.
      rewrite Hrun. split.
      * split; [auto | eauto].
      * intros e t' H. injection H as <- <-. eauto.
Qed.

(** X1 with no setting present: the throw is a [TypeError] and the trace
    is untouched. *)
Lemma getOptionsFromEnvironment_throws_iff_witness :
  (exists msg,
     TypeError "Cannot read property of undefined" = TypeError msg)
  /\ @nil event = [].
Proof.
  apply (proj2 (getOptionsFromEnvironment_throws_iff
                  Fixtures.nothingSet
                  (Fixtures.editorWith (Some (lit 4)) (Resolved true)) [])
           (TypeError "Cannot read property of undefined") []).
  reflexivity.
Defined.

(** X2.  A truthy extension column is selected without looking at the
    rulers or at the editor column: resolution then returns it (sanitized)
    even when there is no rulers list. *)
Theorem truthy_extension_column_short_circuits
    (workspace : Workspace) (editor : TextEditorLike) (t : list event)
    (x : number) :
  rewrap_wrappingColumn workspace = Some x ->
  truthy x = true ->
  selectWrappingColumn workspace = Ok (Number x)
  /\ exists o t',
       getOptionsFromEnvironment workspace editor t = (Ok o, t')
       /\ (PositiveInteger (Number x) -> wrappingColumn o = Number x).
Proof.
  intros Hext Hx.
  pose proof (selectWrappingColumn_extension workspace x Hext Hx) as Hsel.
  split; [exact Hsel |].
  pose proof (getOptionsFromEnvironment_of_selection workspace editor t) as Hrun.
  rewrite Hsel in Hrun. destruct Hrun as (o & t' & Hrun).
  exists o, t'. split; [exact Hrun |].
  intros Hpos.
  destruct (getOptionsFromEnvironment_Ok _ _ _ _ _ Hrun) as (t1 & Hcol & _).
  rewrite getWrappingColumn_run, Hsel in Hcol.
  apply notPositiveInteger_false in Hpos. rewrite Hpos in Hcol.
  destruct (js_gt (Number x) (Number (lit 120))); congruence.
Qed.

(** X2 with an extension column of 100 and no rulers list. *)
Lemma truthy_extension_column_short_circuits_witness :
  selectWrappingColumn
    (Fixtures.workspace_of (Some (lit 100)) None None None)
  = Ok (Number (lit 100)).
Proof.
  apply (truthy_extension_column_short_circuits
           (Fixtures.workspace_of (Some (lit 100)) None None None)
           (Fixtures.editorWith (Some (lit 4)) (Resolved true)) []
           (lit 100)).
  - reflexivity.
  - reflexivity.
Defined.

(** X3.  What the [||] chain selects is always a truthy number: the
    boolean [false] of a failed range test and the [undefined] of an absent
    setting are never selected. *)
Theorem selectWrappingColumn_selects_truthy_number
    (workspace : Workspace) (c : value) :
  selectWrappingColumn workspace = Ok c ->
  exists n, c = Number n /\ ToBoolean c = true.
Proof.
  intros Hsel.
  destruct (selectWrappingColumn_truthy_number workspace c Hsel)
    as (n & -> & Hn).
  exists n. rewrite ToBoolean_number. auto.
Qed.

(** X3 with an editor column of 0, which fails the range test. *)
Lemma selectWrappingColumn_selects_truthy_number_witness :
  exists n, Number (lit 80) = Number n /\ ToBoolean (Number (lit 80)) = true.
Proof.
  apply (selectWrappingColumn_selects_truthy_number
           (Fixtures.workspace_of None (Some []) (Some (lit 0)) None)).
  reflexivity.
Defined.

(** X4.  Whenever resolution returns, the tabSize of the options is a
    positive integer. *)
Theorem resolved_tabSize_positive_integer
    (workspace : Workspace) (editor : TextEditorLike) (t t' : list event)
    (o : WrappingOptions) :
  getOptionsFromEnvironment workspace editor t = (Ok o, t') ->
  PositiveInteger (tabSize o).
Proof.
  intros Hrun.
  destruct (getOptionsFromEnvironment_Ok _ _ _ _ _ Hrun) as (t1 & _ & Htab & _).
  rewrite getTabSize_run in Htab. cbn zeta in Htab.
  injection Htab as Hv _. rewrite <- Hv.
  destruct (notPositiveInteger (of_setting Number (options_tabSize editor)))
    eqn:Hinvalid.
  - exact PositiveInteger_4.
  - apply notPositiveInteger_false. exact Hinvalid.
Qed.

(** X4 at an editor whose tabSize is the fraction 5/2. *)
Lemma resolved_tabSize_positive_integer_witness :
  PositiveInteger (Number (lit 4)).
Proof.
  apply (resolved_tabSize_positive_integer
           Fixtures.hostDefaults
           (Fixtures.editorWith (Some (Finite (5 # 2))) (Resolved true))
           []
           [ConsoleWarn
              "Rewrap: tabSize is an invalid value (%o). Using the default of (4) instead."
              [Number (Finite (5 # 2))]]
           {| wrappingColumn := Number (lit 80);
              tabSize := Number (lit 4);
              doubleSentenceSpacing := Undefined |}).
  reflexivity.
Defined.

(** X5.  What [getWrappingColumn] logs is decided by the selected value: a
    positive integer up to 120 is returned with nothing logged, a larger
    one is returned with the "rather large" warning, and anything else is
    replaced by 80 with the "invalid value" warning; each warning carries
    the selected value. *)
Theorem getWrappingColumn_diagnostics
    (workspace : Workspace) (t : list event) (c : value) :
  selectWrappingColumn workspace = Ok c ->
  (PositiveInteger c -> AtMost 120 c ->
   getWrappingColumn workspace t = (Ok c, t))
  /\ (PositiveInteger c -> ~ AtMost 120 c ->
      getWrappingColumn workspace t =
      (Ok c,
       t ++ [ConsoleWarn
               "Rewrap: wrapping column is a rather large value (%d)." [c]]))
  /\ (~ PositiveInteger c ->
      getWrappingColumn workspace t =
      (Ok (Number (lit 80)),
       t ++ [ConsoleWarn
               "Rewrap: wrapping column is an invalid value (%o). Using the default of (80) instead."
               [c]])).
Proof.
  intros Hsel. rewrite getWrappingColumn_run, Hsel.
  split; [| split].
  - intros Hpos Hle.
    apply (js_gt_AtMost 120 c Hpos) in Hle.
    apply notPositiveInteger_false in Hpos. rewrite Hpos, Hle. reflexivity.
  - intros Hpos Hgt.
    destruct (js_gt c (Number (lit 120))) eqn:Hc.
    + apply notPositiveInteger_false in Hpos. rewrite Hpos. reflexivity.
    + exfalso. apply Hgt. apply (js_gt_AtMost 120 c Hpos). exact Hc.
  - intros Hneg. apply notPositiveInteger_true in Hneg. rewrite Hneg.
    reflexivity.
Qed.

(** X5 at the fallback: with no setting giving a column, 80 is selected
    and returned with nothing logged. *)
Lemma getWrappingColumn_diagnostics_witness :
  getWrappingColumn Fixtures.hostDefaults [] = (Ok (Number (lit 80)), []).
Proof.
  apply (proj1 (getWrappingColumn_diagnostics
                  Fixtures.hostDefaults [] (Number (lit 80)) eq_refl)).
  - apply notPositiveInteger_false. reflexivity.
  - exists (inject_Z 80). split; [reflexivity |].
    unfold Qle. simpl. lia.
Defined.

(** X6.  [getTabSize] logs nothing exactly when the editor's tabSize is a
    positive integer that does not exceed half the wrapping column (the
    test [tabSize > wrappingColumn / 2] is false). *)
Theorem getTabSize_silent_iff
    (editor : TextEditorLike) (wrappingColumn : value) (t : list event) :
  let editorTabSize := of_setting Number (options_tabSize editor) in
  snd (getTabSize editor wrappingColumn t) = t
  <-> PositiveInteger editorTabSize
      /\ js_gt editorTabSize (Number (div_lit (ToNumber wrappingColumn) 2))
         = false.
Proof.
  cbn zeta. rewrite getTabSize_run. cbn zeta. cbn [snd].
  destruct (notPositiveInteger (of_setting Number (options_tabSize editor)))
    eqn:Hinvalid.
  - split.
    + intros H. rewrite <- (app_nil_r t) in H at 2.
      apply app_inv_head in H. discriminate H.
    + intros [Hpos _]. apply notPositiveInteger_false in Hpos. congruence.
  - apply notPositiveInteger_false in Hinvalid. cbn [app].
    destruct (js_gt (of_setting Number (options_tabSize editor))
                (Number (div_lit (ToNumber wrappingColumn) 2))).
    + split.
      * intros H. rewrite <- (app_nil_r t) in H at 2.
        apply app_inv_head in H. discriminate H.
      * intros [_ H]. discriminate H.
    + rewrite app_nil_r. split; auto.
Qed.

(** X6 at a tabSize of 4 against a wrapping column of 80. *)
Lemma getTabSize_silent_iff_witness :
  snd (getTabSize (Fixtures.editorWith (Some (lit 4)) (Resolved true))
                  (Number (lit 80)) [])
  = [].
Proof.
  apply (proj2 (getTabSize_silent_iff
                  (Fixtures.editorWith (Some (lit 4)) (Resolved true))
                  (Number (lit 80)) [])).
  split.
  - apply notPositiveInteger_false. reflexivity.
  - reflexivity.
Defined.

Lemma large_column_half_above_4 (c : value) :
  notPositiveInteger c = false ->
  js_gt c (Number (lit 120)) = true ->
  js_gt (Number (lit 4)) (Number (div_lit (ToNumber c) 2)) = false.
Proof.
  intros Hpos Hlarge. apply notPositiveInteger_false in Hpos.
  destruct Hpos as (p & q & -> & _).
  unfold js_gt, lit, number_lt, Qltb in *.
  cbn [ToNumber div_lit Qnum Qden inject_Z Qdiv Qmult Qinv] in *.
  apply Z.ltb_lt in Hlarge. apply Z.ltb_ge.
  rewrite Pos2Z.inj_mul. lia.
Qed.

(** The trace of a resolution. *)
Lemma getOptionsFromEnvironment_trace
    (workspace : Workspace) (editor : TextEditorLike) (t : list event) :
  exists warnings,
    snd (getOptionsFromEnvironment workspace editor t) = t ++ warnings
    /\ Forall isConsoleWarn warnings
    /\ (List.length warnings <= 2)%nat.
Proof.
  assert (Hwarn : forall format args, isConsoleWarn (ConsoleWarn format args)).
  { intros format args. exists format, args. reflexivity. }
  unfold getOptionsFromEnvironment, bind. rewrite getWrappingColumn_run.
  destruct (selectWrappingColumn workspace) as [c | e].
  2: { exists []. rewrite app_nil_r. repeat split; [constructor | cbn; lia]. }
  set (tab := of_setting Number (options_tabSize editor)).
  assert (Htab : forall v w1,
            Forall isConsoleWarn w1 ->
            (List.length w1
             + (if notPositiveInteger tab then 1 else 0)
             + (if js_gt (if notPositiveInteger tab then Number (lit 4) else tab)
                         (Number (div_lit (ToNumber v) 2))
                then 1 else 0) <= 2)%nat ->
            exists warnings,
              snd (let (r, t2) := getTabSize editor v (t ++ w1) in
                   match r with
                   | Ok a =>
                       ret {| wrappingColumn := v;
                              tabSize := a;
                              doubleSentenceSpacing :=
                                of_setting Boolean
                                  (rewrap_doubleSentenceSpacing workspace) |}
                           t2
                   | Throw e => (Throw e, t2)
                   end) = t ++ warnings
              /\ Forall isConsoleWarn warnings
              /\ (List.length warnings <= 2)%nat).
  { intros v w1 Hw1 Hlen. rewrite getTabSize_run. cbn zeta.
    unfold ret. cbn [snd]. fold tab.
    eexists. rewrite <- app_assoc. split; [reflexivity |].
    split.
    - apply Forall_app. split; [exact Hw1 |].
      apply Forall_app. split.
      + destruct (notPositiveInteger tab); repeat constructor; apply Hwarn.
      + destruct (js_gt _ _); repeat constructor; apply Hwarn.
    - rewrite !List.length_app.
      destruct (notPositiveInteger tab); destruct (js_gt _ _);
        cbn [List.length] in *; lia. }
  destruct (notPositiveInteger c) eqn:Hc.
  - apply Htab; [repeat constructor; apply Hwarn |].
    destruct (notPositiveInteger tab); [cbn; lia |].
    destruct (js_gt tab _); cbn; lia.
  - destruct (js_gt c (Number (lit 120))) eqn:Hlarge.
    + apply Htab; [repeat constructor; apply Hwarn |].
      destruct (notPositiveInteger tab).
      * rewrite (large_column_half_above_4 c Hc Hlarge). cbn. lia.
      * destruct (js_gt tab _); cbn; lia.
    + pose proof (Htab c []) as Hnone. rewrite app_nil_r in Hnone.
      apply Hnone; [constructor |].
      destruct (notPositiveInteger tab); destruct (js_gt _ (Number (div_lit _ _)));
        cbn; lia.
Qed.

(** X7.  Resolution only ever writes warnings to the console, and at most
    two of them: it submits no edit, assigns no selection and shows no
    message, whether it returns or throws. *)
Theorem getOptionsFromEnvironment_only_warns
    (workspace : Workspace) (editor : TextEditorLike) (t : list event) :
  exists warnings,
    snd (getOptionsFromEnvironment workspace editor t) = t ++ warnings
    /\ Forall isConsoleWarn warnings
    /\ (List.length warnings <= 2)%nat.
Proof. exact (getOptionsFromEnvironment_trace workspace editor t). Qed.

(** An invalid column and an invalid tab size: two warnings. *)
Example two_warnings :
  snd (getOptionsFromEnvironment
         (Fixtures.workspace_of (Some (Finite (1 # 2))) None None None)
         (Fixtures.editorWith (Some (lit 0)) (Resolved true)) [])
  = [ConsoleWarn
       "Rewrap: wrapping column is an invalid value (%o). Using the default of (80) instead."
       [Number (Finite (1 # 2))];
     ConsoleWarn
       "Rewrap: tabSize is an invalid value (%o). Using the default of (4) instead."
       [Number (lit 0)]].
Proof. reflexivity. Qed.

(** ** The applicator and the synthesis *)

Lemma applyEdits_as_map
    (edits : list Edit) (document : TextDocument) (builder : TextEditorEdit) :
  applyEdits edits document builder
  = builder ++ map (replacementOf document) edits.
Proof.
  unfold applyEdits. revert builder.
  induction edits as [| e edits IH]; intros builder; cbn [fold_left map].
  - symmetry. apply app_nil_r.
  - rewrite IH. unfold replace, replacementOf.
    rewrite <- app_assoc. reflexivity.
Qed.

Lemma map_result_Forall2 {A B : Type} (f : A -> result B)
    (l : list A) (bs : list B) :
  map_result f l = Ok bs <-> Forall2 (fun a b => f a = Ok b) l bs.
Proof.
  revert bs. induction l as [| a l IH]; intros bs; cbn [map_result].
  - split.
    + intros H. injection H as <-. constructor.
    + intros H. inversion H. reflexivity.
  - split.
    + destruct (f a) as [b | e] eqn:Ha; cbn [result_bind]; [| discriminate].
      destruct (map_result f l) as [bs' | e] eqn:Hl; cbn [result_bind];
        [| discriminate].
      intros H. injection H as <-. constructor; [exact Ha |].
      apply IH. reflexivity.
    + intros H. inversion H as [| a' b l' bs' Ha Hl]; subst.
      rewrite Ha. cbn [result_bind].
      apply IH in Hl. rewrite Hl. reflexivity.
Qed.

Lemma map_result_first_failure {A B : Type} (f : A -> result B)
    (before after : list A) (a : A) (e : exn) :
  Forall (fun x => exists b, f x = Ok b) before ->
  f a = Throw e ->
  map_result f (before ++ a :: after) = Throw e.
Proof.
  intros Hbefore Ha.
  induction Hbefore as [| x before (b & Hx) _ IH]; cbn [app map_result].
  - rewrite Ha. reflexivity.
  - rewrite Hx. cbn [result_bind]. rewrite IH. reflexivity.
Qed.

(** X8.  The order of the edits does not matter to the applicator beyond
    the order of its calls: a batch built from the same edits in another
    order holds the same replacements. *)
Theorem applyEdits_order_irrelevant
    (edits edits' : list Edit) (document : TextDocument)
    (builder : TextEditorEdit) :
  Permutation edits edits' ->
  Permutation (applyEdits edits document builder)
              (applyEdits edits' document builder).
Proof.
  intros Hperm. rewrite !applyEdits_as_map.
  apply Permutation_app_head. apply Permutation_map. exact Hperm.
Qed.

(** X8 at two edits and their swap. *)
Lemma applyEdits_order_irrelevant_witness :
  Permutation
    (applyEdits [Fixtures.wrapped (0, 0)%Z; Fixtures.wrapped (1, 1)%Z]
       Fixtures.threeLines [])
    (applyEdits [Fixtures.wrapped (1, 1)%Z; Fixtures.wrapped (0, 0)%Z]
       Fixtures.threeLines []).
Proof.
  apply (applyEdits_order_irrelevant
           [Fixtures.wrapped (0, 0)%Z; Fixtures.wrapped (1, 1)%Z]
           [Fixtures.wrapped (1, 1)%Z; Fixtures.wrapped (0, 0)%Z]
           Fixtures.threeLines []).
  apply perm_swap.
Defined.

Section Further.

Variable Section_ : Type.
Variable fromDocument : TextDocument -> result (DocumentProcessor Section_).
Variable sectionsInSelections :
  list Section_ -> list Section_ -> list Selection -> result (list Section_).
Variable adjustSelections :
  list string -> list Selection -> list Edit -> result (list Selection).

(** What a successful synthesis went through. *)
Lemma getEditsAndSelections_Ok
    (documentProcessor : DocumentProcessor Section_)
    (documentLines : list string) (selections : list Selection)
    (options : WrappingOptions)
    (edits : list Edit) (adjusted : list Selection) :
  getEditsAndSelections sectionsInSelections adjustSelections
    documentProcessor documentLines selections options
  = Ok (edits, adjusted) ->
  exists sections sectionsToEdit,
    findSections documentProcessor documentLines (tabSize options)
    = Ok sections
    /\ sectionsInSelections (primary sections) (secondary sections) selections
       = Ok sectionsToEdit
    /\ Forall2 (fun s e => editSection documentProcessor options s = Ok e)
               sectionsToEdit edits
    /\ adjustSelections documentLines selections edits = Ok adjusted.
Proof.
  unfold getEditsAndSelections.
  destruct (findSections documentProcessor documentLines (tabSize options))
    as [sections | e]; cbn [result_bind]; [| discriminate].
  destruct (sectionsInSelections (primary sections) (secondary sections)
              selections) as [sectionsToEdit | e] eqn:Hsel;
    cbn [result_bind]; [| discriminate].
  destruct (map_result
              (fun sectionToEdit =>
                 editSection documentProcessor options sectionToEdit)
              sectionsToEdit) as [edits' | e] eqn:Hmap;
    cbn [result_bind]; [| discriminate].
  destruct (adjustSelections documentLines selections edits')
    as [adjusted' | e] eqn:Hadj; cbn [result_bind]; [| discriminate].
  intros H. injection H as <- <-.
  exists sections, sectionsToEdit.
  split; [reflexivity |]. split; [exact Hsel |].
  split; [| exact Hadj].
  apply (proj1 (map_result_Forall2 _ _ _) Hmap).
Qed.

(** X9.  A synthesis that succeeds returns one edit per section to edit,
    in the order of the sections: the i-th edit is what the wrapper
    returned for the i-th section, and the selections are those
    [adjustSelections] computed from these edits. *)
Theorem getEditsAndSelections_keeps_section_order
    (documentProcessor : DocumentProcessor Section_)
    (documentLines : list string) (selections : list Selection)
    (options : WrappingOptions)
    (edits : list Edit) (adjusted : list Selection) :
  getEditsAndSelections sectionsInSelections adjustSelections
    documentProcessor documentLines selections options
  = Ok (edits, adjusted) ->
  exists sections sectionsToEdit,
    findSections documentProcessor documentLines (tabSize options)
    = Ok sections
    /\ sectionsInSelections (primary sections) (secondary sections) selections
       = Ok sectionsToEdit
    /\ Forall2 (fun s e => editSection documentProcessor options s = Ok e)
               sectionsToEdit edits
    /\ List.length edits = List.length sectionsToEdit
    /\ adjustSelections documentLines selections edits = Ok adjusted.
Proof.
  intros Hrun.
  destruct (getEditsAndSelections_Ok _ _ _ _ _ _ Hrun)
    as (sections & sectionsToEdit & Hfind & Hsel & Hall & Hadj).
  exists sections, sectionsToEdit. repeat split; try assumption.
  symmetry. apply (Forall2_length Hall).
Qed.

(** X10.  When the wrapper fails on several sections, the exception of the
    synthesis is that of the first of them in section order: sections
    after it are not wrapped. *)
Theorem getEditsAndSelections_first_failure
    (documentProcessor : DocumentProcessor Section_)
    (documentLines : list string) (selections : list Selection)
    (options : WrappingOptions)
    (sections : Sections Section_)
    (before after : list Section_) (failing : Section_) (e : exn) :
  findSections documentProcessor documentLines (tabSize options)
  = Ok sections ->
  sectionsInSelections (primary sections) (secondary sections) selections
  = Ok (before ++ failing :: after) ->
  Forall (fun s => exists edit, editSection documentProcessor options s = Ok edit)
         before ->
  editSection documentProcessor options failing = Throw e ->
  getEditsAndSelections sectionsInSelections adjustSelections
    documentProcessor documentLines selections options
  = Throw e.
Proof.
  intros Hfind Hsel Hbefore Hfail.
  unfold getEditsAndSelections. rewrite Hfind. cbn [result_bind].
  rewrite Hsel. cbn [result_bind].
  rewrite (map_result_first_failure
             (fun sectionToEdit =>
                editSection documentProcessor options sectionToEdit)
             before after failing e Hbefore Hfail).
  reflexivity.
Qed.

(** X11.  When the document type has no processor or the synthesis fails,
    whatever the stage, [wrapSomething] returns a promise rejected with
    that exception and does nothing else: no batch is submitted and no
    selection is assigned. *)
Theorem wrapSomething_fails_before_edit
    (editor : TextEditorLike) (options : WrappingOptions) (t : list event)
    (e : exn) :
  fromDocument (document editor) = Throw e
  \/ (exists documentProcessor,
        fromDocument (document editor) = Ok documentProcessor
        /\ getEditsAndSelections sectionsInSelections adjustSelections
             documentProcessor
             (map (lineAt (document editor))
                  (seq 0 (lineCount (document editor))))
             (selections editor) options
           = Throw e) ->
  wrapSomething fromDocument sectionsInSelections adjustSelections
    editor options t
  = (Ok (Rejected e), t).
Proof.
  intros [Hdoc | (dp & Hdoc & Hsyn)]; rewrite wrapSomething_run, Hdoc.
  - reflexivity.
  - rewrite Hsyn. reflexivity.
Qed.

(** X12.  [wrapSomething] never throws and never writes to the console or
    shows a message.  The promise it returns tells what it did: resolved,
    it submitted one batch, the host resolved it, and the selections were
    assigned once; rejected, either nothing happened at all or one batch
    was submitted and the host rejected it with that reason, and no
    selection was assigned. *)
Theorem wrapSomething_outcomes
    (editor : TextEditorLike) (options : WrappingOptions)
    (t t' : list event) (r : result (Thenable unit)) :
  wrapSomething fromDocument sectionsInSelections adjustSelections
    editor options t = (r, t') ->
  exists promise,
    r = Ok promise
    /\ match promise with
       | Resolved _ =>
           exists batch applied sels,
             t' = t ++ [EditSubmitted batch; EditSettled (Resolved applied);
                        SelectionsAssigned sels]
       | Rejected e =>
           t' = t
           \/ exists batch,
                t' = t ++ [EditSubmitted batch; EditSettled (Rejected e)]
       end.
Proof.
  rewrite wrapSomething_run.
  destruct (fromDocument (document editor)) as [dp | e].
  2: { intros H. injection H as <- <-. eexists. split; [reflexivity |].
       left. reflexivity. }
  match goal with
  | |- context [getEditsAndSelections ?a ?b ?c ?d ?e ?f] =>
      destruct (getEditsAndSelections a b c d e f) as [[edits sels] | e']
  end.
  2: { intros H. injection H as <- <-. eexists. split; [reflexivity |].
       left. reflexivity. }
  cbn zeta.
  destruct (editSettles editor (applyEdits edits (document editor) []))
    as [applied | e'']; intros H; injection H as <- <-;
    eexists; (split; [reflexivity |]); cbn; eauto.
Qed.

End Further.

(** ** The command *)

Section Command.

Variable Section_ : Type.
Variable fromDocument : TextDocument -> result (DocumentProcessor Section_).
Variable sectionsInSelections :
  list Section_ -> list Section_ -> list Selection -> result (list Section_).
Variable adjustSelections :
  list string -> list Selection -> list Edit -> result (list Selection).

(** The events of [wrapSomething] are never console or message events. *)
Lemma wrapSomething_trace
    (editor : TextEditorLike) (options : WrappingOptions) (t : list event) :
  exists promise new,
    wrapSomething fromDocument sectionsInSelections adjustSelections
      editor options t = (Ok promise, t ++ new)
    /\ Forall (fun ev =>
                 (exists batch, ev = EditSubmitted batch)
                 \/ (exists outcome, ev = EditSettled outcome)
                 \/ (exists sels, ev = SelectionsAssigned sels))
              new.
Proof.
  rewrite wrapSomething_run.
  destruct (fromDocument (document editor)) as [dp | e].
  2: { exists (Rejected e), []. rewrite app_nil_r. split; constructor. }
  match goal with
  | |- context [getEditsAndSelections ?a ?b ?c ?d ?e ?f] =>
      destruct (getEditsAndSelections a b c d e f) as [[edits sels] | e']
  end.
  2: { exists (Rejected e'), []. rewrite app_nil_r. split; constructor. }
  cbn zeta.
  destruct (editSettles editor (applyEdits edits (document editor) []))
    as [applied | e''];
    eexists; eexists; (split; [reflexivity |]).
  - constructor; [left; eauto |].
    constructor; [right; left; eauto |].
    constructor; [right; right; eauto | constructor].
  - constructor; [left; eauto |].
    constructor; [right; left; eauto | constructor].
Qed.

(** The command callback, by how the options were resolved. *)
Lemma rewrapComment_run
    (workspace : Workspace) (editor : TextEditorLike) (t : list event) :
  match getOptionsFromEnvironment workspace editor t with
  | (Throw e, t1) =>
      rewrapComment fromDocument sectionsInSelections adjustSelections
        workspace editor t = (Ok None, t1 ++ errorReport e)
  | (Ok options, t1) =>
      exists promise new,
        rewrapComment fromDocument sectionsInSelections adjustSelections
          workspace editor t = (Ok (Some promise), t1 ++ new)
        /\ wrapSomething fromDocument sectionsInSelections adjustSelections
             editor options t1 = (Ok promise, t1 ++ new)
        /\ forall msg, ~ In (ShowInformationMessage msg) new
  end.
Proof.
  unfold rewrapComment, try_catch, bind.
  destruct (getOptionsFromEnvironment workspace editor t) as [[options | e] t1].
  - destruct (wrapSomething_trace editor options t1)
      as (promise & new & Hrun & Hnew).
    rewrite Hrun. exists promise, new.
    split; [reflexivity |]. split; [reflexivity |].
    intros msg Hin. rewrite Forall_forall in Hnew.
    destruct (Hnew _ Hin) as [(b & H) | [(o & H) | (s & H)]]; discriminate H.
  - unfold emit, ret, errorReport. rewrite <- !app_assoc. reflexivity.
Qed.

(** X13.  The command callback never throws.  It shows its error message,
    and returns [null], exactly when the resolution of the options throws;
    in every other case it returns the promise of [wrapSomething], run on
    the resolved options after the warnings of the resolution, and shows
    nothing, whatever went wrong in it. *)
Theorem rewrapComment_notifies_iff
    (workspace : Workspace) (editor : TextEditorLike) (t : list event) :
  exists returned new,
    rewrapComment fromDocument sectionsInSelections adjustSelections
      workspace editor t = (Ok returned, t ++ new)
    /\ ((exists msg, In (ShowInformationMessage msg) new)
        <-> exists e t1,
              getOptionsFromEnvironment workspace editor t = (Throw e, t1))
    /\ (returned = None
        <-> exists e t1,
              getOptionsFromEnvironment workspace editor t = (Throw e, t1))
    /\ (forall options t1,
          getOptionsFromEnvironment workspace editor t = (Ok options, t1) ->
          exists promise,
            returned = Some promise
            /\ wrapSomething fromDocument sectionsInSelections
                 adjustSelections editor options t1
               = (Ok promise, t ++ new)).
Proof.
  pose proof (rewrapComment_run workspace editor t) as Hrun.
  destruct (getOptionsFromEnvironment_trace workspace editor t)
    as (warnings & Htrace & Hwarn & _).
  destruct (getOptionsFromEnvironment workspace editor t)
    as [[options | e] t1] eqn:Hopts; cbn [snd] in Htrace; subst t1.
  - destruct Hrun as (promise & new & Hrun & Hwrap & Hquiet).
    exists (Some promise), (warnings ++ new).
    rewrite app_assoc. split; [exact Hrun |]. split; [| split].
    + split.
      * intros (msg & Hin). apply in_app_or in Hin.
        destruct Hin as [Hin | Hin].
        -- rewrite Forall_forall in Hwarn.
           destruct (Hwarn _ Hin) as (format & args & H). discriminate H.
        -- destruct (Hquiet msg Hin).
      * intros (e & t1 & H). discriminate H.
    + split; [discriminate |]. intros (e & t1 & H). discriminate H.
    + intros options' t1 H. injection H as <- <-.
      exists promise. split; [reflexivity | exact Hwrap].
  - exists None, (warnings ++ errorReport e).
    rewrite app_assoc. split; [exact Hrun |]. split; [| split].
    + split; [eauto |]. intros _. eexists. apply in_or_app. right.
      unfold errorReport. cbn. auto.
    + split; eauto.
    + intros options t1 H. discriminate H.
Qed.

(** X14.  When the resolution of the options throws, the command logs the
    error report of exactly that exception (an error line, the exception,
    a second error line) and shows one message, after what was on the trace
    before; it submits nothing and assigns no selection. *)
Theorem rewrapComment_reports_options_error
    (workspace : Workspace) (editor : TextEditorLike) (t t1 : list event)
    (e : exn) :
  getOptionsFromEnvironment workspace editor t = (Throw e, t1) ->
  rewrapComment fromDocument sectionsInSelections adjustSelections
    workspace editor t
  = (Ok None, t ++ errorReport e).
Proof.
  intros Hopts.
  pose proof (rewrapComment_run workspace editor t) as Hrun.
  rewrite Hopts in Hrun. rewrite Hrun. f_equal. f_equal.
  pose proof (getOptionsFromEnvironment_of_selection workspace editor t) as Hsel.
  destruct (selectWrappingColumn workspace) as [c | e'].
  - destruct Hsel as (o & t' & Hsel). congruence.
  - congruence.
Qed.

(** X15.  With no section to edit the command does not stop early: it
    submits an empty batch, and assigns the selections that
    [adjustSelections] returns for no edits once the host has resolved
    it. *)
Theorem wrapSomething_nothing_to_edit
    (editor : TextEditorLike) (options : WrappingOptions) (t : list event)
    (documentProcessor : DocumentProcessor Section_)
    (sections : Sections Section_) (adjusted : list Selection)
    (applied : bool) :
  let documentLines :=
    map (lineAt (document editor)) (seq 0 (lineCount (document editor))) in
  fromDocument (document editor) = Ok documentProcessor ->
  findSections documentProcessor documentLines (tabSize options)
  = Ok sections ->
  sectionsInSelections (primary sections) (secondary sections)
    (selections editor) = Ok [] ->
  adjustSelections documentLines (selections editor) [] = Ok adjusted ->
  editSettles editor [] = Resolved applied ->
  wrapSomething fromDocument sectionsInSelections adjustSelections
    editor options t
  = (Ok (Resolved tt),
     t ++ [EditSubmitted []; EditSettled (Resolved applied);
           SelectionsAssigned adjusted]).
Proof.
  cbn zeta. intros Hdoc Hfind Hsel Hadj Hsettles.
  rewrite wrapSomething_run, Hdoc.
  unfold getEditsAndSelections. rewrite Hfind. cbn [result_bind].
  rewrite Hsel. cbn [result_bind map_result]. rewrite Hadj.
  cbn [result_bind]. cbn zeta. cbn [applyEdits fold_left].
  rewrite Hsettles. reflexivity.
Qed.

(** X16.  When [wrapSomething] resolves, the one batch it submitted holds
    exactly one replacement per section to edit, in the order of the
    sections: the i-th replacement is the applicator's for the edit the
    wrapper returned on the i-th section. *)
Theorem wrapSomething_batch_follows_sections
    (editor : TextEditorLike) (options : WrappingOptions)
    (t t' : list event) :
  wrapSomething fromDocument sectionsInSelections adjustSelections
    editor options t = (Ok (Resolved tt), t') ->
  exists documentProcessor sections sectionsToEdit batch applied sels,
    fromDocument (document editor) = Ok documentProcessor
    /\ findSections documentProcessor
         (map (lineAt (document editor)) (seq 0 (lineCount (document editor))))
         (tabSize options) = Ok sections
    /\ sectionsInSelections (primary sections) (secondary sections)
         (selections editor) = Ok sectionsToEdit
    /\ Forall2
         (fun s replacement =>
            exists e,
              editSection documentProcessor options s = Ok e
              /\ replacement = replacementOf (document editor) e)
         sectionsToEdit batch
    /\ t' = t ++ [EditSubmitted batch; EditSettled (Resolved applied);
                  SelectionsAssigned sels].
Proof.
  rewrite wrapSomething_run.
  destruct (fromDocument (document editor)) as [dp | e]; [| discriminate].
  match goal with
  | |- context [getEditsAndSelections ?a ?b ?c ?d ?e ?f] =>
      destruct (getEditsAndSelections a b c d e f) as [[edits sels] | e']
        eqn:Hsyn
  end; [| discriminate].
  cbn zeta.
  destruct (editSettles editor (applyEdits edits (document editor) []))
    as [applied | e'']; [| discriminate].
  intros H. injection H as <-.
  destruct (getEditsAndSelections_Ok _ _ _ _ _ _ _ _ _ Hsyn)
    as (sections & sectionsToEdit & Hfind & Hsel & Hall & _).
  exists dp, sections, sectionsToEdit,
    (applyEdits edits (document editor) []), applied, sels.
  repeat split; try assumption.
  rewrite applyEdits_as_map. cbn [app].
  clear - Hall. induction Hall as [| s e ss es Hs _ IH]; cbn [map].
  - constructor.
  - constructor; [eauto | exact IH].
Qed.

End Command.

(** ** The further properties at concrete inputs *)

(** X9 at the processor whose wrapper succeeds on both sections. *)
Lemma getEditsAndSelections_keeps_section_order_witness :
  exists sections sectionsToEdit,
    findSections Fixtures.soundProcessor Fixtures.documentLines
      (tabSize Fixtures.someOptions) = Ok sections
    /\ Fixtures.allPrimary (primary sections) (secondary sections)
         [Fixtures.caretAt 2 0] = Ok sectionsToEdit
    /\ Forall2
         (fun s e =>
            editSection Fixtures.soundProcessor Fixtures.someOptions s = Ok e)
         sectionsToEdit
         [Fixtures.wrapped (0, 0)%Z; Fixtures.wrapped (1, 1)%Z]
    /\ List.length [Fixtures.wrapped (0, 0)%Z; Fixtures.wrapped (1, 1)%Z]
       = List.length sectionsToEdit
    /\ Fixtures.keepSelections Fixtures.documentLines [Fixtures.caretAt 2 0]
         [Fixtures.wrapped (0, 0)%Z; Fixtures.wrapped (1, 1)%Z]
       = Ok [Fixtures.caretAt 2 0].
Proof.
  apply (getEditsAndSelections_keeps_section_order
           Fixtures.lineRange Fixtures.allPrimary Fixtures.keepSelections
           Fixtures.soundProcessor Fixtures.documentLines
           [Fixtures.caretAt 2 0] Fixtures.someOptions
           [Fixtures.wrapped (0, 0)%Z; Fixtures.wrapped (1, 1)%Z]
           [Fixtures.caretAt 2 0]).
  reflexivity.
Defined.

(** X10 at the processor whose wrapper fails on the second section. *)
Lemma getEditsAndSelections_first_failure_witness :
  getEditsAndSelections Fixtures.allPrimary Fixtures.keepSelections
    Fixtures.failingProcessor Fixtures.documentLines [Fixtures.caretAt 2 0]
    Fixtures.someOptions
  = Throw (Error "malformed decoration").
Proof.
  apply (getEditsAndSelections_first_failure
           Fixtures.lineRange Fixtures.allPrimary Fixtures.keepSelections
           Fixtures.failingProcessor Fixtures.documentLines
           [Fixtures.caretAt 2 0] Fixtures.someOptions
           {| primary := [(0, 0); (1, 1)]%Z; secondary := [] |}
           [(0, 0)%Z] [] (1, 1)%Z (Error "malformed decoration")).
  - reflexivity.
  - reflexivity.
  - constructor; [| constructor].
    exists (Fixtures.wrapped (0, 0)%Z). reflexivity.
  - reflexivity.
Defined.

(** X11 at the same processor: the promise is rejected and the trace is
    empty. *)
Lemma wrapSomething_fails_before_edit_witness :
  wrapSomething (Fixtures.processorOf Fixtures.failingProcessor)
    Fixtures.allPrimary Fixtures.keepSelections
    (Fixtures.editorWith (Some (lit 4)) (Resolved true))
    Fixtures.someOptions []
  = (Ok (Rejected (Error "malformed decoration")), []).
Proof.
  apply (wrapSomething_fails_before_edit
           Fixtures.lineRange (Fixtures.processorOf Fixtures.failingProcessor)
           Fixtures.allPrimary Fixtures.keepSelections
           (Fixtures.editorWith (Some (lit 4)) (Resolved true))
           Fixtures.someOptions [] (Error "malformed decoration")).
  right. exists Fixtures.failingProcessor. split; reflexivity.
Defined.

(** X12 at a host that rejects the edit: the batch was submitted, and no
    selection was assigned. *)
Lemma wrapSomething_outcomes_witness :
  exists promise,
    Ok (Rejected (Error "document closed") : Thenable unit) = Ok promise
    /\ match promise with
       | Resolved _ =>
           exists batch applied sels,
             [EditSubmitted Fixtures.twoReplacements;
              EditSettled (Rejected (Error "document closed"))]
             = [] ++ [EditSubmitted batch; EditSettled (Resolved applied);
                      SelectionsAssigned sels]
       | Rejected e =>
           [EditSubmitted Fixtures.twoReplacements;
            EditSettled (Rejected (Error "document closed"))] = []
           \/ exists batch,
                [EditSubmitted Fixtures.twoReplacements;
                 EditSettled (Rejected (Error "document closed"))]
                = [] ++ [EditSubmitted batch; EditSettled (Rejected e)]
       end.
Proof.
  apply (wrapSomething_outcomes
           Fixtures.lineRange (Fixtures.processorOf Fixtures.soundProcessor)
           Fixtures.allPrimary Fixtures.keepSelections
           (Fixtures.editorWith (Some (lit 4))
              (Rejected (Error "document closed")))
           Fixtures.someOptions []).
  reflexivity.
Defined.

(** X13 at a run whose options resolve and whose wrapper then fails: the
    callback returns the rejected promise of [wrapSomething] and shows
    nothing. *)
Lemma rewrapComment_notifies_iff_witness :
  exists returned new,
    rewrapComment (Fixtures.processorOf Fixtures.failingProcessor)
      Fixtures.allPrimary Fixtures.keepSelections
      Fixtures.hostDefaults
      (Fixtures.editorWith (Some (lit 4)) (Resolved true)) []
    = (Ok returned, [] ++ new)
    /\ exists promise,
         returned = Some promise
         /\ wrapSomething (Fixtures.processorOf Fixtures.failingProcessor)
              Fixtures.allPrimary Fixtures.keepSelections
              (Fixtures.editorWith (Some (lit 4)) (Resolved true))
              {| wrappingColumn := Number (lit 80);
                 tabSize := Number (lit 4);
                 doubleSentenceSpacing := Undefined |}
              []
            = (Ok promise, [] ++ new).
Proof.
  destruct (rewrapComment_notifies_iff
              Fixtures.lineRange
              (Fixtures.processorOf Fixtures.failingProcessor)
              Fixtures.allPrimary Fixtures.keepSelections
              Fixtures.hostDefaults
              (Fixtures.editorWith (Some (lit 4)) (Resolved true)) [])
    as (returned & new & Hrun & _ & _ & Hpromise).
  exists returned, new. split; [exact Hrun |].
  apply (Hpromise
           {| wrappingColumn := Number (lit 80);
              tabSize := Number (lit 4);
              doubleSentenceSpacing := Undefined |}
           []).
  reflexivity.
Defined.

(** X14 with no setting present. *)
Lemma rewrapComment_reports_options_error_witness :
  rewrapComment (Fixtures.processorOf Fixtures.soundProcessor)
    Fixtures.allPrimary Fixtures.keepSelections
    Fixtures.nothingSet (Fixtures.editorWith (Some (lit 4)) (Resolved true)) []
  = (Ok None,
     [] ++ errorReport (TypeError "Cannot read property of undefined")).
Proof.
  apply (rewrapComment_reports_options_error
           Fixtures.lineRange (Fixtures.processorOf Fixtures.soundProcessor)
           Fixtures.allPrimary Fixtures.keepSelections
           Fixtures.nothingSet
           (Fixtures.editorWith (Some (lit 4)) (Resolved true)) [] []
           (TypeError "Cannot read property of undefined")).
  reflexivity.
Defined.

(** X15 when no section is in the selections, at a host that reports the
    empty edit as not applied. *)
Lemma wrapSomething_nothing_to_edit_witness :
  wrapSomething (Fixtures.processorOf Fixtures.soundProcessor)
    (fun _ _ _ => Ok []) Fixtures.keepSelections
    (Fixtures.editorWith (Some (lit 4)) (Resolved false))
    Fixtures.someOptions []
  = (Ok (Resolved tt),
     [] ++ [EditSubmitted []; EditSettled (Resolved false);
            SelectionsAssigned [Fixtures.caretAt 2 0]]).
Proof.
  apply (wrapSomething_nothing_to_edit
           Fixtures.lineRange (Fixtures.processorOf Fixtures.soundProcessor)
           (fun _ _ _ => Ok []) Fixtures.keepSelections
           (Fixtures.editorWith (Some (lit 4)) (Resolved false))
           Fixtures.someOptions [] Fixtures.soundProcessor
           {| primary := [(0, 0); (1, 1)]%Z; secondary := [] |}
           [Fixtures.caretAt 2 0] false).
  - reflexivity.
  - reflexivity.
  - reflexivity.
  - reflexivity.
  - reflexivity.
Defined.

(** X16 at the run on two sections: two replacements, in section order. *)
Lemma wrapSomething_batch_follows_sections_witness :
  exists documentProcessor sections sectionsToEdit batch applied sels,
    Fixtures.processorOf Fixtures.soundProcessor Fixtures.threeLines
    = Ok documentProcessor
    /\ findSections documentProcessor
         (map (lineAt Fixtures.threeLines) (seq 0 3))
         (tabSize Fixtures.someOptions) = Ok sections
    /\ Fixtures.allPrimary (primary sections) (secondary sections)
         [Fixtures.caretAt 2 0] = Ok sectionsToEdit
    /\ Forall2
         (fun s replacement =>
            exists e,
              editSection documentProcessor Fixtures.someOptions s = Ok e
              /\ replacement = replacementOf Fixtures.threeLines e)
         sectionsToEdit batch
    /\ [EditSubmitted Fixtures.twoReplacements; EditSettled (Resolved true);
        SelectionsAssigned [Fixtures.caretAt 2 0]]
       = [] ++ [EditSubmitted batch; EditSettled (Resolved applied);
                SelectionsAssigned sels].
Proof.
  apply (wrapSomething_batch_follows_sections
           Fixtures.lineRange (Fixtures.processorOf Fixtures.soundProcessor)
           Fixtures.allPrimary Fixtures.keepSelections
           (Fixtures.editorWith (Some (lit 4)) (Resolved true))
           Fixtures.someOptions []
           [EditSubmitted Fixtures.twoReplacements;
            EditSettled (Resolved true);
            SelectionsAssigned [Fixtures.caretAt 2 0]]).
  reflexivity.
Defined.
